(** * weatherstack_to_postgres: a shallow embedding of the ETL script

    The development follows [dags/weatherstack_to_postgres.py].  Python
    values that come out of [resp.json()] are the inductive [json];
    exceptions are values of [exn]; code that touches the environment, the
    network or the database is written in a state-and-exception monad over
    an explicit [world].  Unlike a state transformer over an error type,
    the monad keeps the world reached when an exception is raised, which
    is what [try ... except] and [try ... finally] need. *)

From Stdlib Require Import ZArith PrimFloat Uint63 Ascii String DecimalString.
From stdpp Require Import base option gmap strings list.

Set Warnings "-register-all,-inexact-float".

Local Open Scope Z_scope.

(** ** Python values *)

(** What [json.loads] can return.  A [dict] keeps its insertion order, so
    it is an association list; lookups take the first binding of a key.
    A Python [float] is a binary64 number, that is a primitive float. *)
Inductive json : Type :=
| JNull
| JBool (b : bool)
| JInt (n : Z)
| JFloat (f : float)
| JStr (s : string)
| JList (items : list json)
| JDict (fields : list (string * json)).

(** ** Exceptions *)

(** The exception classes the script meets.  All of them derive from
    [Exception]; [LibraryError] stands for the classes of [requests] and
    [psycopg2], named by their class name. *)
Inductive exc_class : Type :=
| ValueError
| TypeError
| AttributeError
| KeyError
| OverflowError
| RuntimeError
| LibraryError (name : string).

(** An exception object: its class and [str(e)]. *)
Record exn : Type := Exn { exn_class : exc_class; exn_text : string }.

Inductive result (A : Type) : Type :=
| Ok (a : A)
| Raise (e : exn).
Arguments Ok {A} a.
Arguments Raise {A} e.

Definition is_ok {A} (r : result A) : bool :=
  match r with Ok _ => true | Raise _ => false end.

(** ** The builtins the script relies on *)

(** Conversions between text and numbers are builtins of the interpreter,
    not code of the script: [int(s)], [float(s)], [float(n)], [repr] of a
    float and [repr] of a string.  They are an interface here; [None]
    stands for the [ValueError] (or [OverflowError] for [float_of_int])
    the builtin raises.  [int_refusal] is the message of the [ValueError]
    of [int(s)] for a refused text whose [repr] is longer than 200
    characters: the interpreter cuts the [repr] it quotes, and from
    CPython 3.11 on it reports a text of more than 4300 digits with a
    message of its own. *)
Class Runtime : Type := {
  int_of_str : string -> option Z;
  float_of_str : string -> option float;
  float_of_int : Z -> option float;
  repr_float : float -> string;
  repr_str : string -> string;
  int_refusal : string -> string
}.

(** [str(n)] for an [int]. *)
Definition str_of_Z (n : Z) : string := NilZero.string_of_int (Z.to_int n).

(** [type(v).__name__] *)
Definition type_name (v : json) : string :=
  match v with
  | JNull => "NoneType"
  | JBool _ => "bool"
  | JInt _ => "int"
  | JFloat _ => "float"
  | JStr _ => "str"
  | JList _ => "list"
  | JDict _ => "dict"
  end.

(** [", ".join(parts)] *)
Fixpoint join_comma (parts : list string) : string :=
  match parts with
  | [] => ""
  | [p] => p
  | p :: rest => p +:+ ", " +:+ join_comma rest
  end.

Section Builtins.
Context {rt : Runtime}.

(** [repr(v)] *)
Fixpoint py_repr (v : json) : string :=
  match v with
  | JNull => "None"
  | JBool true => "True"
  | JBool false => "False"
  | JInt n => str_of_Z n
  | JFloat f => repr_float f
  | JStr s => repr_str s
  | JList items => "[" +:+ join_comma (map py_repr items) +:+ "]"
  | JDict fields =>
      "{" +:+ join_comma (map (fun kv => match kv with
                                        | (k, x) => repr_str k +:+ ": " +:+ py_repr x
                                        end) fields) +:+ "}"
  end.

(** [str(v)], which is what an f-string field [{v}] inserts. *)
Definition py_str (v : json) : string :=
  match v with
  | JStr s => s
  | _ => py_repr v
  end.

(** [float(v)] *)
Definition py_float (v : json) : result float :=
  match v with
  | JFloat f => Ok f
  | JInt n =>
      match float_of_int n with
      | Some f => Ok f
      | None => Raise (Exn OverflowError "int too large to convert to float")
      end
  | JBool b => Ok (if b then 1%float else 0%float)
  | JStr s =>
      match float_of_str s with
      | Some f => Ok f
      | None => Raise (Exn ValueError ("could not convert string to float: " +:+ repr_str s))
      end
  | JNull | JList _ | JDict _ =>
      Raise (Exn TypeError ("float() argument must be a string or a real number, not '"
                            +:+ type_name v +:+ "'"))
  end.

(** The message of the [ValueError] of [int(s)]: the text is quoted in
    full when its [repr] has at most 200 characters. *)
Definition int_error (s : string) : string :=
  if (String.length (repr_str s) <=? 200)%nat
  then "invalid literal for int() with base 10: " +:+ repr_str s
  else int_refusal s.

(** [int(s)] for a string [s] *)
Definition py_int (s : string) : result Z :=
  match int_of_str s with
  | Some n => Ok n
  | None => Raise (Exn ValueError (int_error s))
  end.

End Builtins.

(** Truth value of a Python object, as [or] tests it. *)
Definition truthy (v : json) : bool :=
  match v with
  | JNull => false
  | JBool b => b
  | JInt n => negb (n =? 0)%Z
  | JFloat f => negb (PrimFloat.eqb f 0%float)
  | JStr s => negb (String.eqb s "")
  | JList items => match items with [] => false | _ => true end
  | JDict fields => match fields with [] => false | _ => true end
  end.

(** [d[k]] on the association list of a dict: the first binding. *)
Fixpoint dict_lookup (fields : list (string * json)) (k : string) : option json :=
  match fields with
  | [] => None
  | (k', x) :: rest => if String.eqb k' k then Some x else dict_lookup rest k
  end.

Definition no_get (v : json) : exn :=
  Exn AttributeError ("'" +:+ type_name v +:+ "' object has no attribute 'get'").

(** [obj.get(k, default)]: only a dict has the method. *)
Definition py_get_default (obj : json) (k : string) (default : json) : result json :=
  match obj with
  | JDict fields => Ok (match dict_lookup fields k with Some x => x | None => default end)
  | _ => Raise (no_get obj)
  end.

(** [obj.get(k)] *)
Definition py_get (obj : json) (k : string) : result json :=
  py_get_default obj k JNull.

(** [obj[k]] for a string key [k] *)
Definition py_index (obj : json) (k : string) : result json :=
  match obj with
  | JDict fields =>
      match dict_lookup fields k with
      | Some x => Ok x
      | None => Raise (Exn KeyError k)
      end
  | JList _ => Raise (Exn TypeError "list indices must be integers or slices, not str")
  | JStr _ => Raise (Exn TypeError "string indices must be integers, not 'str'")
  | _ => Raise (Exn TypeError ("'" +:+ type_name obj +:+ "' object is not subscriptable"))
  end.

(** [a or b] *)
Definition py_or (a b : json) : json := if truthy a then a else b.

(** ** Strings: [str.strip] and [in] *)

(** A character of a [string] stands for a code point below 256.  These
    are the ones [str.isspace] accepts in that range: TAB to CR, FS to US,
    SPACE, NEL and NBSP. *)
Definition is_space (c : ascii) : bool :=
  let n := nat_of_ascii c in
  ((9 <=? n) && (n <=? 13) || (28 <=? n) && (n <=? 32) || (n =? 133) || (n =? 160))%nat.

Fixpoint lstrip (s : string) : string :=
  match s with
  | EmptyString => EmptyString
  | String c rest => if is_space c then lstrip rest else s
  end.

(** [rstrip] as a right fold: a character is dropped when it is a space
    and everything after it was dropped. *)
Fixpoint rstrip (s : string) : string :=
  match s with
  | EmptyString => EmptyString
  | String c rest =>
      match rstrip rest with
      | EmptyString => if is_space c then EmptyString else String c EmptyString
      | kept => String c kept
      end
  end.

(** [s.strip()] *)
Definition strip (s : string) : string := rstrip (lstrip s).

(** The string has no character that is not a space. *)
Fixpoint blank (s : string) : bool :=
  match s with
  | EmptyString => true
  | String c rest => is_space c && blank rest
  end.

(** [needle in hay] for two strings *)
Fixpoint str_contains (needle hay : string) : bool :=
  String.prefix needle hay
  || match hay with
     | EmptyString => false
     | String _ rest => str_contains needle rest
     end.

(** The specification of [in] on strings: [hay] is [pre ++ needle ++ post]. *)
Definition occurs_in (needle hay : string) : Prop :=
  exists pre post, hay = pre +:+ needle +:+ post.

(** ** Configuration *)

Definition DAG_ID : string := "weatherstack_to_postgres".
Definition RETENTION_DAYS : Z := 2.

(** [os.getenv(name, default)] *)
Definition getenv (env : gmap string string) (name : string) (default : option string)
  : option string :=
  match env !! name with
  | Some v => Some v
  | None => default
  end.

(** [str(val)] for [val : str | None] *)
Definition str_of_opt (val : option string) : string :=
  match val with
  | Some s => s
  | None => "None"
  end.

Definition is_none {A} (o : option A) : bool :=
  match o with None => true | Some _ => false end.

Definition _get_env (env : gmap string string) (name : string) (default : option string)
    (required : bool) : result string :=
  let val := getenv env name default in
  if required && (is_none val || String.eqb (strip (str_of_opt val)) "")
  then Raise (Exn ValueError ("Missing required environment variable: " +:+ name))
  else Ok (str_of_opt val).

(** ** Monads *)

#[export] Instance result_ret : MRet result := fun _ a => Ok a.
#[export] Instance result_bind : MBind result := fun _ _ k r =>
  match r with
  | Ok a => k a
  | Raise e => Raise e
  end.

(** ** The database *)

Inductive coltype : Type :=
| BIGSERIAL
| TEXT
| DOUBLE_PRECISION
| REAL
| TIMESTAMPTZ
| JSONB.

(** A value handed to [cursor.execute]: a plain Python object, or one
    wrapped in psycopg2's [Json] adapter. *)
Inductive pyobj : Type :=
| Plain (v : json)
| Json (v : json).

(** A row of [weather_current]: the instant [now()] gave to [fetched_at]
    and the eighteen values the INSERT statement supplied, by column name.
    [Plain JNull] is SQL NULL.  The [id] column is filled by the table's
    sequence and read by no statement of the script; the table keeps its
    rows in insertion order instead. *)
Record stored_row : Type := StoredRow {
  row_fetched_at : Z;
  row_cells : list (string * pyobj)
}.

(** Kinds of relation in the catalog. *)
Inductive relkind : Type :=
| RelTable
| RelIndex (on_table : string).

(** The catalog, by relation name, and the contents of [weather_current]. *)
Record database : Type := Database {
  relations : gmap string relkind;
  weather_current : list stored_row
}.

Record conn_params : Type := ConnParams {
  host : string;
  port : Z;
  dbname : string;
  user : string;
  password : string
}.

(** ** The world *)

(** What one endpoint does with a GET: [requests.get] raises, or it gives
    a response whose [.json()] raises or returns the parsed body. *)
Inductive response : Type :=
| NoResponse (e : exn)
| Replied (body : result json).

(** The calls the script makes; a statement is recorded by the name the
    script gives its text. *)
Inductive event : Type :=
| EvHttpGet (url : string) (params : list (string * string)) (timeout : Z)
| EvPgConnect (params : conn_params)
| EvPgExecute (statement : string)
| EvPgClose.

(** Everything outside the process: the environment variables, the
    provider, the database server with its clock (microseconds since the
    epoch) and its judgement [pg_accepts] of whether a bound value can be
    stored in a column of a given type (psycopg2's adaptation followed by
    the server's assignment cast), and the calls made so far. *)
Record world : Type := World {
  env : gmap string string;
  http : string -> list (string * string) -> response;
  pg_up : bool;
  pg_accepts : coltype -> pyobj -> bool;
  pg_now : Z;
  db : database;
  trace : list event
}.

Definition with_db (d : database) (w : world) : world :=
  World (env w) (http w) (pg_up w) (pg_accepts w) (pg_now w) d (trace w).

Definition with_trace (t : list event) (w : world) : world :=
  World (env w) (http w) (pg_up w) (pg_accepts w) (pg_now w) (db w) t.

(** A computation returns or raises, and leaves a world either way. *)
Definition M (A : Type) : Type := world -> result A * world.

#[export] Instance M_ret : MRet M := fun _ a w => (Ok a, w).
#[export] Instance M_bind : MBind M := fun _ _ k m w =>
  match m w with
  | (Ok a, w') => k a w'
  | (Raise e, w') => (Raise e, w')
  end.

Definition raise {A} (e : exn) : M A := fun w => (Raise e, w).

Definition lift {A} (r : result A) : M A := fun w => (r, w).

Definition emit (e : event) : M unit :=
  fun w => (Ok tt, with_trace (trace w ++ [e]) w).

(** [try: body finally: cleanup] *)
Definition try_finally {A} (body : M A) (cleanup : M unit) : M A :=
  fun w =>
    let (r, w1) := body w in
    match cleanup w1 with
    | (Ok _, w2) => (r, w2)
    | (Raise e, w2) => (Raise e, w2)
    end.

Section Script.
Context {rt : Runtime}.

Definition _pg_conn_params (e : gmap string string) : result conn_params :=
  h ← _get_env e "PG_HOST" (Some "localhost") false;
  ps ← _get_env e "PG_PORT" (Some "5433") false;
  p ← py_int ps;
  d ← _get_env e "PG_DATABASE" (Some "weatherdb") false;
  u ← _get_env e "PG_USER" (Some "weather") false;
  pw ← _get_env e "PG_PASSWORD" (Some "weather") false;
  Ok (ConnParams h p d u pw).

(** [psycopg2.connect] on the unpacked [_pg_conn_params()]: the parameters
    are computed first; the server is contacted only when they are. *)
Definition connect : M conn_params :=
  fun w =>
    match _pg_conn_params (env w) with
    | Raise e => (Raise e, w)
    | Ok p =>
        let w' := with_trace (trace w ++ [EvPgConnect p]) w in
        if pg_up w then (Ok p, w')
        else (Raise (Exn (LibraryError "psycopg2.OperationalError") "connection failed"), w')
    end.

(** [conn.close()] *)
Definition close : M unit := emit EvPgClose.

(** [cur.execute]: one call is one transaction (autocommit), so the
    database changes only when the statement succeeds. *)
Definition execute (statement : string) (run : world -> result database) : M unit :=
  fun w =>
    let w' := with_trace (trace w ++ [EvPgExecute statement]) w in
    match run w with
    | Ok d => (Ok tt, with_db d w')
    | Raise e => (Raise e, w')
    end.

(** The shape every database step of the script has. *)
Definition with_connection (statement : string) (run : world -> result database) : M unit :=
  _ ← connect;
  try_finally (execute statement run) close.

(** *** Schema *)

Definition TABLE : string := "weather_current".
Definition INDEX : string := "idx_weather_current_fetched_at".

(** The columns of [CREATE_TABLE_SQL]: name, type, NOT NULL. *)
Definition table_columns : list (string * coltype * bool) :=
  [ ("id", BIGSERIAL, true);
    ("query_text", TEXT, true);
    ("location_name", TEXT, false);
    ("region", TEXT, false);
    ("country", TEXT, false);
    ("latitude", DOUBLE_PRECISION, false);
    ("longitude", DOUBLE_PRECISION, false);
    ("observation_time", TEXT, false);
    ("temperature_c", REAL, false);
    ("humidity", REAL, false);
    ("wind_speed", REAL, false);
    ("wind_dir", TEXT, false);
    ("pressure", REAL, false);
    ("precip", REAL, false);
    ("cloudcover", REAL, false);
    ("uv_index", REAL, false);
    ("visibility", REAL, false);
    ("is_day", TEXT, false);
    ("fetched_at", TIMESTAMPTZ, true);
    ("raw", JSONB, true) ].

Definition pg_error (class text : string) : exn :=
  Exn (LibraryError ("psycopg2.errors." +:+ class)) text.

(** [CREATE TABLE IF NOT EXISTS weather_current (...)]: skipped when a
    relation of that name exists. *)
Definition create_table_if_not_exists (d : database) : result database :=
  match relations d !! TABLE with
  | Some _ => Ok d
  | None => Ok (Database (<[TABLE := RelTable]> (relations d)) [])
  end.

(** [CREATE INDEX IF NOT EXISTS idx_weather_current_fetched_at
     ON weather_current (fetched_at DESC)]: the target must be a table;
    skipped when a relation of the index's name exists. *)
Definition create_index_if_not_exists (d : database) : result database :=
  match relations d !! TABLE with
  | Some RelTable =>
      match relations d !! INDEX with
      | Some _ => Ok d
      | None => Ok (Database (<[INDEX := RelIndex TABLE]> (relations d)) (weather_current d))
      end
  | Some (RelIndex _) => Raise (pg_error "WrongObjectType" "weather_current is not a table")
  | None => Raise (pg_error "UndefinedTable" "relation weather_current does not exist")
  end.

(** The two statements of [CREATE_TABLE_SQL], sent as one string. *)
Definition CREATE_TABLE_SQL (w : world) : result database :=
  d ← create_table_if_not_exists (db w);
  create_index_if_not_exists d.

Definition ensure_table : M unit :=
  with_connection "CREATE_TABLE_SQL" CREATE_TABLE_SQL.

(** *** Fetching *)

Definition base_urls : list string :=
  [ "https://api.weatherstack.com/current";
    "http://api.weatherstack.com/current" ].

(** [requests.get(url, params=..., timeout=...)] *)
Definition requests_get (url : string) (params : list (string * string)) (timeout : Z)
  : M (result json) :=
  fun w =>
    let w' := with_trace (trace w ++ [EvHttpGet url params timeout]) w in
    match http w url params with
    | NoResponse e => (Raise e, w')
    | Replied body => (Ok body, w')
    end.

(** [isinstance(data, dict) and data.get("success") is False] *)
Definition success_is_false (data : json) : bool :=
  match data with
  | JDict fields =>
      match dict_lookup fields "success" with
      | Some (JBool false) => true
      | _ => false
      end
  | _ => false
  end.

(** [needle in container] for a string [needle]: a key of a dict, an
    element of a list, a substring of a string; other objects are not
    containers. *)
Definition py_in (needle : string) (container : json) : result bool :=
  match container with
  | JDict fields => Ok (negb (is_none (dict_lookup fields needle)))
  | JList items =>
      Ok (existsb (fun x => match x with
                            | JStr s => String.eqb needle s
                            | _ => false
                            end) items)
  | JStr s => Ok (str_contains needle s)
  | _ => Raise (Exn TypeError ("argument of type '" +:+ type_name container
                               +:+ "' is not iterable"))
  end.

(** The two checks between [data = resp.json()] and [return data]. *)
Definition check_payload (data : json) : result json :=
  if success_is_false data then
    err ← py_get_default data "error" (JDict []);
    code ← py_get err "code";
    info ← py_get err "info";
    Raise (Exn RuntimeError
             ("Weatherstack API error (code=" +:+ py_str code +:+ "): " +:+ py_str info))
  else
    present ← py_in "current" data;
    if negb present
    then Raise (Exn RuntimeError ("Unexpected API response shape: " +:+ py_str data))
    else Ok data.

(** The body of the [try] for one endpoint. *)
Definition attempt (base_url query api_key units : string) : M json :=
  resp ← requests_get base_url
           [("access_key", api_key); ("query", query); ("units", units)] 20;
  data ← lift resp;
  lift (check_payload data).

(** [str(last_error)] *)
Definition str_of_error (last_error : option exn) : string :=
  match last_error with
  | Some e => exn_text e
  | None => "None"
  end.

(** The [for] loop with its [except Exception] handler, and the [raise]
    after it. *)
Fixpoint fetch_loop (urls : list string) (query api_key units : string)
    (last_error : option exn) : M json :=
  match urls with
  | [] =>
      raise (Exn RuntimeError
               ("Failed calling Weatherstack API (https/http). Last error: "
                +:+ str_of_error last_error))
  | base_url :: rest =>
      fun w =>
        match attempt base_url query api_key units w with
        | (Ok data, w') => (Ok data, w')
        | (Raise e, w') => fetch_loop rest query api_key units (Some e) w'
        end
  end.

Definition fetch_weather_from_api (query api_key units : string) : M json :=
  fetch_loop base_urls query api_key units None.

(** *** Loading *)

(** [api_payload.get(name, {}) or {}] *)
Definition section (api_payload : json) (name : string) : result json :=
  x ← py_get_default api_payload name (JDict []);
  Ok (py_or x (JDict [])).

(** [float(location[k]) if location.get(k) is not None else None] *)
Definition coerce_float (location : json) (k : string) : result json :=
  x ← py_get location k;
  match x with
  | JNull => Ok JNull
  | _ =>
      v ← py_index location k;
      f ← py_float v;
      Ok (JFloat f)
  end.

(** The three sections and the [row] dict literal, entries in order. *)
Definition build_row (api_payload : json) : result (list (string * json)) :=
  request_obj ← section api_payload "request";
  location ← section api_payload "location";
  current ← section api_payload "current";
  query_text ← py_get request_obj "query";
  location_name ← py_get location "name";
  region ← py_get location "region";
  country ← py_get location "country";
  latitude ← coerce_float location "lat";
  longitude ← coerce_float location "lon";
  observation_time ← py_get current "observation_time";
  temperature_c ← py_get current "temperature";
  humidity ← py_get current "humidity";
  wind_speed ← py_get current "wind_speed";
  wind_dir ← py_get current "wind_dir";
  pressure ← py_get current "pressure";
  precip ← py_get current "precip";
  cloudcover ← py_get current "cloudcover";
  uv_index ← py_get current "uv_index";
  visibility ← py_get current "visibility";
  is_day ← py_get current "is_day";
  Ok [ ("query_text", query_text);
       ("location_name", location_name);
       ("region", region);
       ("country", country);
       ("latitude", latitude);
       ("longitude", longitude);
       ("observation_time", observation_time);
       ("temperature_c", temperature_c);
       ("humidity", humidity);
       ("wind_speed", wind_speed);
       ("wind_dir", wind_dir);
       ("pressure", pressure);
       ("precip", precip);
       ("cloudcover", cloudcover);
       ("uv_index", uv_index);
       ("visibility", visibility);
       ("is_day", is_day);
       ("raw", api_payload) ].

(** The column list of [insert_sql], which is also its placeholder list. *)
Definition insert_columns : list string :=
  [ "query_text"; "location_name"; "region"; "country"; "latitude"; "longitude";
    "observation_time"; "temperature_c"; "humidity"; "wind_speed"; "wind_dir";
    "pressure"; "precip"; "cloudcover"; "uv_index"; "visibility"; "is_day";
    "raw" ].

Fixpoint param_lookup (params : list (string * pyobj)) (k : string) : option pyobj :=
  match params with
  | [] => None
  | (k', x) :: rest => if String.eqb k' k then Some x else param_lookup rest k
  end.

(** [params[k] = x] on a dict that has the key: the entry keeps its place. *)
Fixpoint param_set (params : list (string * pyobj)) (k : string) (x : pyobj)
  : list (string * pyobj) :=
  match params with
  | [] => [(k, x)]
  | (k', y) :: rest =>
      if String.eqb k' k then (k', x) :: rest else (k', y) :: param_set rest k x
  end.

(** psycopg2 fills each [%(name)s] from the mapping. *)
Fixpoint bind_placeholders (names : list string) (params : list (string * pyobj))
  : result (list (string * pyobj)) :=
  match names with
  | [] => Ok []
  | n :: rest =>
      match param_lookup params n with
      | None => Raise (Exn KeyError n)
      | Some x =>
          cells ← bind_placeholders rest params;
          Ok ((n, x) :: cells)
      end
  end.

Fixpoint column_of (cols : list (string * coltype * bool)) (name : string)
  : option (coltype * bool) :=
  match cols with
  | [] => None
  | (n, ty, notnull) :: rest =>
      if String.eqb n name then Some (ty, notnull) else column_of rest name
  end.

Definition is_sql_null (x : pyobj) : bool :=
  match x with
  | Plain JNull => true
  | _ => false
  end.

(** The server takes the value for the column. *)
Definition cell_accepted (w : world) (cell : string * pyobj) : bool :=
  match column_of table_columns cell.1 with
  | Some (ty, _) => pg_accepts w ty cell.2
  | None => false
  end.

(** The column's NOT NULL constraint holds for the value. *)
Definition cell_not_null_ok (cell : string * pyobj) : bool :=
  match column_of table_columns cell.1 with
  | Some (_, notnull) => negb (notnull && is_sql_null cell.2)
  | None => false
  end.

(** [INSERT INTO weather_current (...) VALUES (...)]: one row, with
    [fetched_at] defaulted to [now()], or an error and no row. *)
Definition INSERT_SQL (params : list (string * pyobj)) (w : world) : result database :=
  cells ← bind_placeholders insert_columns params;
  match relations (db w) !! TABLE with
  | Some RelTable =>
      if negb (forallb (cell_accepted w) cells)
      then Raise (pg_error "DataError" "a value does not fit its column")
      else if negb (forallb cell_not_null_ok cells)
      then Raise (pg_error "NotNullViolation" "null value violates not-null constraint")
      else Ok (Database (relations (db w))
                 (weather_current (db w) ++ [StoredRow (pg_now w) cells]))
  | Some (RelIndex _) => Raise (pg_error "WrongObjectType" "weather_current is not a table")
  | None => Raise (pg_error "UndefinedTable" "relation weather_current does not exist")
  end.

Definition load_to_postgres (api_payload : json) : M unit :=
  row ← lift (build_row api_payload);
  _ ← connect;
  try_finally
    (raw ← lift (match dict_lookup row "raw" with
                 | Some x => Ok x
                 | None => Raise (Exn KeyError "raw")
                 end);
     let params := param_set (map (fun kv => (kv.1, Plain kv.2)) row) "raw" (Json raw) in
     execute "insert_sql" (INSERT_SQL params))
    close.

(** *** Pruning *)

(** The length of a day in microseconds: [interval 'n days'] taken from a
    [timestamptz] in a session time zone whose offset does not change. *)
Definition usec_per_day : Z := 86400000000.

(** [now() - (days || ' days')::interval] *)
Definition cutoff (w : world) (days : Z) : Z := pg_now w - days * usec_per_day.

(** [DELETE FROM weather_current WHERE fetched_at < now() - ...] *)
Definition DELETE_SQL (days : Z) (w : world) : result database :=
  match relations (db w) !! TABLE with
  | Some RelTable =>
      Ok (Database (relations (db w))
            (filter (fun r => ¬ (row_fetched_at r < cutoff w days)) (weather_current (db w))))
  | Some (RelIndex _) => Raise (pg_error "WrongObjectType" "weather_current is not a table")
  | None => Raise (pg_error "UndefinedTable" "relation weather_current does not exist")
  end.

(** The text of that statement; [%s] is bound to [RETENTION_DAYS]. *)
Definition DELETE_TEXT : string :=
  "DELETE FROM weather_current WHERE fetched_at < now() - (%s || ' days')::interval;".

Definition cleanup_old_rows : M unit :=
  with_connection DELETE_TEXT (DELETE_SQL RETENTION_DAYS).

(** *** The task of the DAG that fetches and loads *)

Definition get_env (name : string) (default : option string) (required : bool) : M string :=
  fun w => (_get_env (env w) name default required, w).

Definition extract_and_load : M unit :=
  api_key ← get_env "WEATHERSTACK_API_KEY" None true;
  query ← get_env "WEATHERSTACK_QUERY" (Some "Jakarta") false;
  units ← get_env "WEATHERSTACK_UNITS" (Some "m") false;
  payload ← fetch_weather_from_api query api_key units;
  load_to_postgres payload.

End Script.

(** ** A runtime and worlds for the examples *)

(** The builtins on plain decimal literals, to run the examples: an
    optional sign, digits and, for a float, a point followed by digits.
    On such a literal of at most fifteen digits the quotient of two exactly
    represented integers is the correctly rounded value, which is what
    [float] returns.  This runtime refuses every other literal, also those
    CPython takes (exponents, underscores, [inf], [nan]); no example has
    one.  Its [repr] of a string is right for printable text without
    quotes or backslashes, and its [repr] of a float is a placeholder. *)
Definition digit_of (c : ascii) : option Z :=
  let n := Z.of_nat (nat_of_ascii c) in
  if ((48 <=? n) && (n <=? 57))%Z then Some (n - 48) else None.

Fixpoint digits_from (s : string) (acc : Z) : option Z :=
  match s with
  | EmptyString => Some acc
  | String c rest =>
      match digit_of c with
      | Some d => digits_from rest (10 * acc + d)
      | None => None
      end
  end.

Definition natural (s : string) : option Z :=
  match s with
  | EmptyString => None
  | _ => digits_from s 0
  end.

Definition signed {A} (parse : string -> option A) (neg : A -> A) (s : string) : option A :=
  match s with
  | String "-" rest => neg <$> parse rest
  | String "+" rest => parse rest
  | _ => parse s
  end.

Fixpoint split_point (s : string) : string * option string :=
  match s with
  | EmptyString => (EmptyString, None)
  | String "." rest => (EmptyString, Some rest)
  | String c rest => let (a, b) := split_point rest in (String c a, b)
  end.

Definition float_of_small (n : Z) : option float :=
  if ((0 <=? n) && (n <? 2 ^ 53))%Z then Some (PrimFloat.of_uint63 (Uint63.of_Z n)) else None.

Definition unsigned_float (s : string) : option float :=
  match split_point s with
  | (whole, None) => n ← natural whole; float_of_small n
  | (whole, Some frac) =>
      _ ← natural whole;
      _ ← natural frac;
      m ← natural (whole +:+ frac);
      if (String.length frac <=? 15)%nat then
        num ← float_of_small m;
        den ← float_of_small (10 ^ Z.of_nat (String.length frac));
        Some (PrimFloat.div num den)
      else None
  end.

#[export] Instance plain_runtime : Runtime := {|
  int_of_str s := signed natural Z.opp (strip s);
  float_of_str s := signed unsigned_float PrimFloat.opp (strip s);
  float_of_int n := if (n <? 0)%Z then PrimFloat.opp <$> float_of_small (- n) else float_of_small n;
  repr_float _ := "<float>";
  repr_str s := "'" +:+ s +:+ "'";
  int_refusal s :=
    "invalid literal for int() with base 10: " +:+ String.substring 0 200 ("'" +:+ s +:+ "'")
|}.

(** The payload of the end-to-end example. *)
Definition example_payload : json :=
  JDict [ ("request", JDict [("query", JStr "Jakarta")]);
          ("location", JDict [("name", JStr "Jakarta"); ("lat", JStr "-6.21");
                              ("lon", JStr "106.85")]);
          ("current", JDict [("temperature", JInt 29); ("humidity", JInt 70)]) ].

(** A database on which [ensure_table] has run, holding [rows]. *)
Definition provisioned (rows : list stored_row) : database :=
  Database (<[INDEX := RelIndex TABLE]> (<[TABLE := RelTable]> ∅)) rows.

(** A world with a reachable server that takes every value, at instant
    [now], with nothing called yet. *)
Definition quiet_world (e : gmap string string)
    (h : string -> list (string * string) -> response) (now : Z) (d : database) : world :=
  World e h true (fun _ _ => true) now d [].

(** A provider that answers every endpoint with the same body. *)
Definition always (data : json) : string -> list (string * string) -> response :=
  fun _ _ => Replied (Ok data).

(** A provider whose secure endpoint times out and whose plain endpoint
    answers with [data]. *)
Definition https_down (data : json) : string -> list (string * string) -> response :=
  fun url _ =>
    if String.eqb url "https://api.weatherstack.com/current"
    then NoResponse (Exn (LibraryError "requests.exceptions.ConnectTimeout") "timed out")
    else Replied (Ok data).

(** A provider that cannot be reached on either endpoint. *)
Definition unreachable : string -> list (string * string) -> response :=
  fun url _ =>
    NoResponse (Exn (LibraryError "requests.exceptions.ConnectionError")
                  ("cannot reach " +:+ url)).

(** The provider's answer to a request without a valid key. *)
Definition api_error_fields : list (string * json) :=
  [ ("success", JBool false);
    ("error", JDict [ ("code", JInt 101);
                      ("type", JStr "invalid_access_key");
                      ("info", JStr "You have not supplied a valid API Access Key.") ]) ].

Definition key_only : gmap string string := {[ "WEATHERSTACK_API_KEY" := "secret" ]}.

(** ** Vocabulary of the statements *)

(** The query parameters of one GET. *)
Definition request_params (query api_key units : string) : list (string * string) :=
  [("access_key", api_key); ("query", query); ("units", units)].

(** The calls [fetch_loop] makes when it visits [urls]. *)
Definition visited (urls : list string) (query api_key units : string) : list event :=
  map (fun url => EvHttpGet url (request_params query api_key units) 20) urls.

(** What one endpoint yields in a world: the exception of the GET, the
    exception of [.json()], the exception of a check, or the payload. *)
Definition endpoint_result {rt : Runtime} (w : world) (url query api_key units : string)
  : result json :=
  match http w url (request_params query api_key units) with
  | NoResponse e => Raise e
  | Replied body => data ← body; check_payload data
  end.

(** The failure the loop remembers after visiting [urls]. *)
Fixpoint last_failure {rt : Runtime} (w : world) (urls : list string)
    (query api_key units : string) (last : option exn) : option exn :=
  match urls with
  | [] => last
  | url :: rest =>
      match endpoint_result w url query api_key units with
      | Raise e => last_failure w rest query api_key units (Some e)
      | Ok _ => last_failure w rest query api_key units last
      end
  end.

(** The text of the error raised after the loop. *)
Definition aggregated (last_error : option exn) : exn :=
  Exn RuntimeError
    ("Failed calling Weatherstack API (https/http). Last error: " +:+ str_of_error last_error).

(** The trace of one database step. *)
Definition pg_session (p : conn_params) (statement : string) : list event :=
  [EvPgConnect p; EvPgExecute statement; EvPgClose].

(** The database once the table and its index are in place: the two
    names are bound, and the rows are those of the table that was there,
    if any. *)
Definition ensured (d : database) : database :=
  Database (<[INDEX := RelIndex TABLE]> (<[TABLE := RelTable]> (relations d)))
    (match relations d !! TABLE with
     | Some _ => weather_current d
     | None => []
     end).

(** The rows the pruner keeps at cutoff [c]. *)
Definition kept_rows (c : Z) (rows : list stored_row) : list stored_row :=
  filter (fun r => ¬ (row_fetched_at r < c)) rows.

(** The value is absent from the mapping, or null. *)
Definition missing_or_null (fields : list (string * json)) (k : string) : Prop :=
  dict_lookup fields k = None \/ dict_lookup fields k = Some JNull.

(** A section the loader can read: absent, falsy, or a mapping. *)
Definition section_ok (fields : list (string * json)) (name : string) : bool :=
  match dict_lookup fields name with
  | None => true
  | Some (JDict _) => true
  | Some x => negb (truthy x)
  end.

(** The mapping a section holds, empty when the section is absent or is
    no mapping. *)
Definition section_fields (fields : list (string * json)) (sec : string)
  : list (string * json) :=
  match dict_lookup fields sec with
  | Some (JDict inner) => inner
  | _ => []
  end.

(** The mapping as documented: [payload[sec][key]], null when the section
    or the key is not there. *)
Definition field (fields : list (string * json)) (sec key : string) : json :=
  match dict_lookup (section_fields fields sec) key with
  | Some x => x
  | None => JNull
  end.

(** Coercion to floating point only when present. *)
Definition to_double {rt : Runtime} (x : json) : result json :=
  match x with
  | JNull => Ok JNull
  | _ => f ← py_float x; Ok (JFloat f)
  end.

(** The seventeen flattened columns of a payload, under the documented
    mapping; [lat] and [lon] are the coerced coordinates. *)
Definition flat_columns (fields : list (string * json)) (lat lon : json)
  : list (string * json) :=
  [ ("query_text", field fields "request" "query");
    ("location_name", field fields "location" "name");
    ("region", field fields "location" "region");
    ("country", field fields "location" "country");
    ("latitude", lat);
    ("longitude", lon);
    ("observation_time", field fields "current" "observation_time");
    ("temperature_c", field fields "current" "temperature");
    ("humidity", field fields "current" "humidity");
    ("wind_speed", field fields "current" "wind_speed");
    ("wind_dir", field fields "current" "wind_dir");
    ("pressure", field fields "current" "pressure");
    ("precip", field fields "current" "precip");
    ("cloudcover", field fields "current" "cloudcover");
    ("uv_index", field fields "current" "uv_index");
    ("visibility", field fields "current" "visibility");
    ("is_day", field fields "current" "is_day") ].

(** The values of the row a payload is stored as: its flattened columns
    and the payload itself, wrapped for the archive column. *)
Definition flattened (fields : list (string * json)) (lat lon : json)
  : list (string * pyobj) :=
  map (fun kv => (kv.1, Plain kv.2)) (flat_columns fields lat lon)
  ++ [("raw", Json (JDict fields))].

(** The columns of a section all hold null. *)
Definition all_null (row : list (string * json)) (cols : list string) : Prop :=
  forall c, c ∈ cols -> dict_lookup row c = Some JNull.

Definition request_columns : list string := ["query_text"].
Definition location_columns : list string :=
  ["location_name"; "region"; "country"; "latitude"; "longitude"].
Definition current_columns : list string :=
  [ "observation_time"; "temperature_c"; "humidity"; "wind_speed"; "wind_dir";
    "pressure"; "precip"; "cloudcover"; "uv_index"; "visibility"; "is_day" ].

(** A payload with a [current] section whose latitude is no number. *)
Definition uncoercible_payload : json :=
  JDict [ ("request", JDict [("query", JStr "Jakarta")]);
          ("location", JDict [("name", JStr "Jakarta"); ("lat", JStr "north")]);
          ("current", JDict [("temperature", JInt 29)]) ].

(** ** Vocabulary of the further properties *)

(** A setting: the variable's value when it is set, the default otherwise. *)
Definition setting (e : gmap string string) (name default : string) : string :=
  match e !! name with
  | Some v => v
  | None => default
  end.

(** The world when the server clock reads [t]. *)
Definition at_time (t : Z) (w : world) : world :=
  World (env w) (http w) (pg_up w) (pg_accepts w) t (db w) (trace w).

(** The database calls of one step that sends [statement]: none when the
    connection parameters cannot be computed, the attempt alone when the
    server is down, and otherwise the connection, the statement and the
    close. *)
Definition step_calls {rt : Runtime} (w : world) (statement : string) : list event :=
  match _pg_conn_params (env w) with
  | Raise _ => []
  | Ok p => if pg_up w then pg_session p statement else [EvPgConnect p]
  end.

(** [isinstance(v, dict)] *)
Definition is_mapping (v : json) : bool :=
  match v with
  | JDict _ => true
  | _ => false
  end.

(** psycopg2 can write the value into the statement it sends: a mapping
    has no adapter, a string may not hold the NUL character, and a list is
    written element by element. *)
Fixpoint adapts (v : json) : bool :=
  match v with
  | JDict _ => false
  | JStr s => negb (str_contains (String Ascii.zero "") s)
  | JList items => forallb adapts items
  | _ => true
  end.

(** The same for a bound parameter: the [Json] wrapper is written as the
    JSON text of what it wraps. *)
Definition adaptable (x : pyobj) : bool :=
  match x with
  | Plain v => adapts v
  | Json _ => true
  end.

(** The sections the loader reads. *)
Definition sections : list string := ["request"; "location"; "current"].

(** The two endpoints, by name. *)
Definition HTTPS_URL : string := "https://api.weatherstack.com/current".
Definition HTTP_URL : string := "http://api.weatherstack.com/current".

(** The passing of time between two tasks: the server clock reads [t]. *)
Definition clock_reads (t : Z) : M unit := fun w => (Ok tt, at_time t w).

(** One run of the DAG, [t1 >> t2 >> t3], in which no task is retried:
    the tasks run in order at the instants [i1], [i2] and [i3], and a task
    that raises ends the run. *)
Definition dag_run {rt : Runtime} (i1 i2 i3 : Z) : M unit :=
  _ ← clock_reads i1;
  _ ← ensure_table;
  _ ← clock_reads i2;
  _ ← extract_and_load;
  _ ← clock_reads i3;
  cleanup_old_rows.

(** * Properties *)

(** ** Strings *)

Lemma lstrip_blank (s : string) : blank s = true -> lstrip s = "".
Proof.
  induction s as [|c rest IH]; simpl; [done|].
  intros [Hc Hrest]%andb_prop. rewrite Hc. auto.
Qed.

Lemma rstrip_blank (s : string) : rstrip s = "" <-> blank s = true.
Proof.
  induction s as [|c rest IH]; simpl; [done|].
  destruct (rstrip rest) eqn:Hr.
  - destruct (is_space c); simpl.
    + split; intros _; [by apply IH | done].
    + split; [done | intros Hf; discriminate Hf].
  - split; [done|].
    intros [_ Hrest]%andb_prop. apply IH in Hrest. discriminate Hrest.
Qed.

Lemma lstrip_blank_inv (s : string) : blank (lstrip s) = true -> blank s = true.
Proof.
  induction s as [|c rest IH]; simpl; [done|].
  destruct (is_space c) eqn:Hc; simpl; [auto|].
  rewrite Hc. done.
Qed.

Lemma strip_blank (s : string) : strip s = "" <-> blank s = true.
Proof.
  unfold strip. rewrite rstrip_blank. split.
  - apply lstrip_blank_inv.
  - intros H. by rewrite (lstrip_blank s H).
Qed.

Lemma append_assoc (a b c : string) : (a +:+ b) +:+ c = a +:+ (b +:+ c).
Proof.
  induction a as [|x a IH]; [reflexivity|].
  change (String x ((a +:+ b) +:+ c) = String x (a +:+ (b +:+ c))).
  by f_equal.
Qed.

Lemma occurs_in_middle (pre needle post : string) :
  occurs_in needle (pre +:+ needle +:+ post).
Proof. by exists pre, post. Qed.

Lemma occurs_in_prefixed (pre needle hay : string) :
  occurs_in needle hay -> occurs_in needle (pre +:+ hay).
Proof.
  intros (a & b & ->). exists (pre +:+ a), b. by rewrite append_assoc.
Qed.

(** ** The environment reader *)

Lemma get_env_required_raises (e : gmap string string) (name : string)
    (default : option string) :
  getenv e name default = None
  \/ (exists s, getenv e name default = Some s /\ blank s = true) ->
  _get_env e name default true
  = Raise (Exn ValueError ("Missing required environment variable: " +:+ name)).
Proof.
  intros [Hnone | (s & Hsome & Hblank)]; unfold _get_env.
  - by rewrite Hnone.
  - rewrite Hsome. simpl. apply strip_blank in Hblank. by rewrite Hblank.
Qed.

Lemma get_env_required_returns (e : gmap string string) (name : string)
    (default : option string) (s : string) :
  getenv e name default = Some s -> blank s = false ->
  _get_env e name default true = Ok s.
Proof.
  intros Hsome Hblank. unfold _get_env. rewrite Hsome. simpl.
  destruct (String.eqb (strip s) "") eqn:Heq; [|done].
  apply String.eqb_eq, strip_blank in Heq. congruence.
Qed.

Lemma get_env_optional (e : gmap string string) (name : string) (default : option string) :
  _get_env e name default false = Ok (str_of_opt (getenv e name default)).
Proof. reflexivity. Qed.

(** C10.  Reading a required variable whose value (what [os.getenv] gives
    once the default is applied) is unset or only whitespace raises
    [ValueError]; reading a variable that is not required, is unset and has
    no default returns the four-character string [None], that is [str]
    applied to the missing default. *)
Theorem get_env_edge_cases (e : gmap string string) (name : string) :
  (forall default,
      getenv e name default = None
      \/ (exists s, getenv e name default = Some s /\ blank s = true) ->
      _get_env e name default true
      = Raise (Exn ValueError ("Missing required environment variable: " +:+ name)))
  /\ (e !! name = None -> _get_env e name None false = Ok "None").
Proof.
  split.
  - intros default. apply get_env_required_raises.
  - intros Hunset. rewrite get_env_optional. unfold getenv. by rewrite Hunset.
Qed.

Lemma get_env_edge_cases_witness :
  _get_env ∅ "WEATHERSTACK_API_KEY" None true
  = Raise (Exn ValueError "Missing required environment variable: WEATHERSTACK_API_KEY")
  /\ _get_env {[ "WEATHERSTACK_API_KEY" := "   " ]} "WEATHERSTACK_API_KEY" None true
     = Raise (Exn ValueError "Missing required environment variable: WEATHERSTACK_API_KEY")
  /\ _get_env ∅ "PG_HOST" None false = Ok "None".
Proof.
  split; [|split].
  - apply (proj1 (get_env_edge_cases ∅ "WEATHERSTACK_API_KEY") None).
    left. reflexivity.
  - apply (proj1 (get_env_edge_cases {[ "WEATHERSTACK_API_KEY" := "   " ]}
                    "WEATHERSTACK_API_KEY") None).
    right. exists "   ". split; reflexivity.
  - apply (proj2 (get_env_edge_cases ∅ "PG_HOST")). reflexivity.
Defined.

(** ** Running the monad *)

Lemma bind_ok {A B} (m : M A) (k : A -> M B) (w w' : world) (a : A) :
  m w = (Ok a, w') -> (m ≫= k) w = k a w'.
Proof. unfold mbind, M_bind. by intros ->. Qed.

Lemma bind_raise {A B} (m : M A) (k : A -> M B) (w w' : world) (e : exn) :
  m w = (Raise e, w') -> (m ≫= k) w = (Raise e, w').
Proof. unfold mbind, M_bind. by intros ->. Qed.

Ltac run_monad :=
  unfold mbind, M_bind, mret, M_ret, result_bind, result_ret, lift, raise; simpl.

(** ** The task that fetches and loads *)

(** C9.  When the API credential is missing from the environment (or is
    only whitespace) [extract_and_load] raises the [ValueError] of
    [_get_env] and leaves the world as it was: the trace has no GET and no
    database connection on top of what it had, and the database is the
    same. *)
Theorem extract_and_load_missing_key {rt : Runtime} (w : world) :
  env w !! "WEATHERSTACK_API_KEY" = None
  \/ (exists s, env w !! "WEATHERSTACK_API_KEY" = Some s /\ blank s = true) ->
  extract_and_load w
  = (Raise (Exn ValueError "Missing required environment variable: WEATHERSTACK_API_KEY"), w).
Proof.
  intros Hkey. unfold extract_and_load.
  apply bind_raise. unfold get_env. f_equal.
  apply get_env_required_raises.
  unfold getenv. destruct Hkey as [-> | (s & -> & Hs)]; [by left | right; eauto].
Qed.

Lemma extract_and_load_missing_key_witness :
  extract_and_load (quiet_world ∅ (always example_payload) 0 (provisioned []))
  = (Raise (Exn ValueError "Missing required environment variable: WEATHERSTACK_API_KEY"),
     quiet_world ∅ (always example_payload) 0 (provisioned [])).
Proof.
  apply (extract_and_load_missing_key
           (quiet_world ∅ (always example_payload) 0 (provisioned []))).
  left. reflexivity.
Defined.

(** ** The checks on a payload *)

Lemma check_payload_returns {rt : Runtime} (d d' : json) :
  check_payload d = Ok d' ->
  d' = d /\ success_is_false d = false /\ py_in "current" d = Ok true.
Proof.
  unfold check_payload. destruct (success_is_false d).
  - run_monad. destruct (py_get_default d "error" _) as [err|]; [|done].
    destruct (py_get err "code"); [|done].
    destruct (py_get err "info"); done.
  - run_monad. destruct (py_in "current" d) as [[]|]; simpl; try done.
    by intros [= ->].
Qed.

Lemma check_payload_passes {rt : Runtime} (d : json) :
  success_is_false d = false -> py_in "current" d = Ok true -> check_payload d = Ok d.
Proof. unfold check_payload. by intros -> ->. Qed.

(** ** The fetcher *)

Section Fetcher.
Context {rt : Runtime}.
Variables query api_key units : string.

Lemma attempt_run (url : string) (w : world) :
  attempt url query api_key units w
  = (endpoint_result w url query api_key units,
     with_trace (trace w ++ visited [url] query api_key units) w).
Proof.
  unfold attempt, endpoint_result, requests_get, request_params, visited.
  run_monad.
  destruct (http w url _) as [e | [data | e]]; reflexivity.
Qed.

Lemma endpoint_result_with_trace (t : list event) (w : world) (url : string) :
  endpoint_result (with_trace t w) url query api_key units
  = endpoint_result w url query api_key units.
Proof. reflexivity. Qed.

Lemma with_trace_twice (t1 t2 : list event) (w : world) :
  with_trace t2 (with_trace t1 w) = with_trace t2 w.
Proof. reflexivity. Qed.

(** The handler: an endpoint that fails is recorded as [last_error] and the
    loop goes on with the next one. *)
Lemma fetch_loop_failed (url : string) (rest : list string) (last : option exn)
    (w : world) (e : exn) :
  endpoint_result w url query api_key units = Raise e ->
  fetch_loop (url :: rest) query api_key units last w
  = fetch_loop rest query api_key units (Some e)
      (with_trace (trace w ++ visited [url] query api_key units) w).
Proof. intros He. simpl. by rewrite attempt_run, He. Qed.

(** The early [return]: the first endpoint that passes ends the loop. *)
Lemma fetch_loop_returned (url : string) (rest : list string) (last : option exn)
    (w : world) (data : json) :
  endpoint_result w url query api_key units = Ok data ->
  fetch_loop (url :: rest) query api_key units last w
  = (Ok data, with_trace (trace w ++ visited [url] query api_key units) w).
Proof. intros Hd. simpl. by rewrite attempt_run, Hd. Qed.

Lemma last_failure_with_trace (t : list event) (w : world) (urls : list string) :
  forall last,
    last_failure (with_trace t w) urls query api_key units last
    = last_failure w urls query api_key units last.
Proof.
  induction urls as [|url rest IH]; intros last; simpl; [done|].
  rewrite endpoint_result_with_trace.
  destruct (endpoint_result w url query api_key units); apply IH.
Qed.

Lemma fetch_loop_all_failed (urls : list string) :
  forall (last : option exn) (w : world),
    (forall url, url ∈ urls -> is_ok (endpoint_result w url query api_key units) = false) ->
    fetch_loop urls query api_key units last w
    = (Raise (aggregated (last_failure w urls query api_key units last)),
       with_trace (trace w ++ visited urls query api_key units) w).
Proof.
  induction urls as [|url rest IH]; intros last w Hfail.
  - simpl. unfold raise, visited. simpl. rewrite app_nil_r. by destruct w.
  - destruct (endpoint_result w url query api_key units) as [data | e] eqn:Hres.
    + specialize (Hfail url (list_elem_of_here _ _)). by rewrite Hres in Hfail.
    + rewrite (fetch_loop_failed _ _ _ _ _ Hres), IH.
      * rewrite last_failure_with_trace. simpl last_failure. rewrite Hres.
        f_equal. unfold with_trace, visited. simpl. by rewrite <- app_assoc.
      * intros url' Hin. rewrite endpoint_result_with_trace.
        apply Hfail. by apply list_elem_of_further.
Qed.

(** Whatever the loop returns has passed both checks. *)
Lemma fetch_loop_checked (urls : list string) :
  forall (last : option exn) (w w' : world) (data : json),
    fetch_loop urls query api_key units last w = (Ok data, w') ->
    success_is_false data = false /\ py_in "current" data = Ok true.
Proof.
  induction urls as [|url rest IH]; intros last w w' data; simpl.
  - unfold raise. intros [=].
  - rewrite attempt_run.
    destruct (endpoint_result w url query api_key units) as [d | e] eqn:Hres.
    + intros [= -> _]. revert Hres. unfold endpoint_result.
      destruct (http w url _) as [e | [d | e]]; simpl; try done.
      intros Hd. by destruct (check_payload_returns _ _ Hd) as (-> & ? & ?).
    + apply IH.
Qed.

End Fetcher.

Lemma check_payload_api_error {rt : Runtime} (fields : list (string * json)) :
  dict_lookup fields "success" = Some (JBool false) ->
  exists e,
    check_payload (JDict fields) = Raise e
    /\ (forall err code,
          dict_lookup fields "error" = Some (JDict err) ->
          dict_lookup err "code" = Some code ->
          e = Exn RuntimeError
                ("Weatherstack API error (code=" +:+ py_str code +:+ "): "
                 +:+ py_str (default JNull (dict_lookup err "info")))).
Proof.
  intros Hflag. unfold check_payload, success_is_false. rewrite Hflag.
  run_monad.
  destruct (dict_lookup fields "error") as [err|] eqn:Herr.
  - destruct err as [| | | | |items|inner];
      try (eexists; split; [reflexivity | by intros ? ? [=]]).
    simpl. eexists. split; [reflexivity|].
    intros err code [= <-] ->. simpl.
    by destruct (dict_lookup inner "info").
  - simpl. eexists. split; [reflexivity | by intros ? ? [=]].
Qed.

(** C4.  On a candidate list whose first endpoint fails (its GET raises,
    its body does not parse, or its payload fails a check) and whose
    second endpoint yields a valid payload, the loop returns the second
    endpoint's payload after calling the first and then the second;
    [fetch_weather_from_api] runs the loop on the https endpoint followed
    by the http endpoint; and a failing endpoint is recorded in place of
    what was recorded before, while the loop goes on with the remaining
    candidates: with no candidate left, the error raised after the loop
    quotes the failure of that endpoint. *)
Theorem fetch_falls_back {rt : Runtime} (query api_key units : string) :
  (forall (first second : string) (rest : list string) (last : option exn)
          (w : world) (e : exn) (data : json),
      endpoint_result w first query api_key units = Raise e ->
      endpoint_result w second query api_key units = Ok data ->
      fetch_loop (first :: second :: rest) query api_key units last w
      = (Ok data, with_trace (trace w ++ visited [first; second] query api_key units) w))
  /\ (forall (w : world) (e : exn) (data : json),
      endpoint_result w "https://api.weatherstack.com/current" query api_key units = Raise e ->
      endpoint_result w "http://api.weatherstack.com/current" query api_key units = Ok data ->
      fetch_weather_from_api query api_key units w
      = (Ok data,
         with_trace (trace w ++ visited [ "https://api.weatherstack.com/current";
                                          "http://api.weatherstack.com/current" ]
                                  query api_key units) w))
  /\ (forall (url : string) (rest : list string) (last : option exn) (w : world) (e : exn),
      endpoint_result w url query api_key units = Raise e ->
      fetch_loop (url :: rest) query api_key units last w
      = fetch_loop rest query api_key units (Some e)
          (with_trace (trace w ++ visited [url] query api_key units) w)
      /\ fetch_loop [url] query api_key units last w
         = (Raise (Exn RuntimeError
                     ("Failed calling Weatherstack API (https/http). Last error: "
                      +:+ exn_text e)),
            with_trace (trace w ++ visited [url] query api_key units) w)).
Proof.
  assert (Hgen : forall first second rest last w e data,
             endpoint_result w first query api_key units = Raise e ->
             endpoint_result w second query api_key units = Ok data ->
             fetch_loop (first :: second :: rest) query api_key units last w
             = (Ok data,
                with_trace (trace w ++ visited [first; second] query api_key units) w)).
  { intros first second rest last w e data Hfirst Hsecond.
    erewrite fetch_loop_failed by exact Hfirst.
    erewrite fetch_loop_returned by (rewrite endpoint_result_with_trace; exact Hsecond).
    f_equal. unfold with_trace, visited. simpl. by rewrite <- app_assoc. }
  split; [exact Hgen | split].
  - intros w e data Hs Hp. unfold fetch_weather_from_api, base_urls. by eapply Hgen.
  - intros url rest last w e He. split; [by apply fetch_loop_failed|].
    by rewrite (fetch_loop_failed _ _ _ url [] last w e He).
Qed.

Lemma fetch_falls_back_witness :
  fetch_weather_from_api "Jakarta" "secret" "m"
    (quiet_world key_only (https_down example_payload) 0 (provisioned []))
  = (Ok example_payload,
     with_trace ([] ++ visited [ "https://api.weatherstack.com/current";
                                 "http://api.weatherstack.com/current" ]
                         "Jakarta" "secret" "m")
       (quiet_world key_only (https_down example_payload) 0 (provisioned []))).
Proof.
  apply (proj1 (proj2 (fetch_falls_back "Jakarta" "secret" "m"))
           (quiet_world key_only (https_down example_payload) 0 (provisioned []))
           (Exn (LibraryError "requests.exceptions.ConnectTimeout") "timed out")
           example_payload).
  - reflexivity.
  - reflexivity.
Defined.

(** C5.  When every endpoint candidate fails, [fetch_weather_from_api]
    raises one [RuntimeError], after calling each candidate once, whose
    text ends with [str] of the failure of the last candidate (the http
    endpoint). *)
Theorem fetch_all_failed {rt : Runtime} (query api_key units : string) (w : world) :
  (forall url, url ∈ base_urls ->
               is_ok (endpoint_result w url query api_key units) = false) ->
  exists e_last,
    endpoint_result w "http://api.weatherstack.com/current" query api_key units
    = Raise e_last
    /\ fetch_weather_from_api query api_key units w
       = (Raise (Exn RuntimeError
                   ("Failed calling Weatherstack API (https/http). Last error: "
                    +:+ exn_text e_last)),
          with_trace (trace w ++ visited base_urls query api_key units) w).
Proof.
  intros Hfail. unfold fetch_weather_from_api.
  rewrite fetch_loop_all_failed by exact Hfail.
  assert (Hs := Hfail "https://api.weatherstack.com/current").
  assert (Hp := Hfail "http://api.weatherstack.com/current").
  unfold base_urls in *. simpl last_failure.
  destruct (endpoint_result w "https://api.weatherstack.com/current" _ _ _) as [|e1].
  { exfalso. apply Is_true_false_2 in Hs; [done | set_solver]. }
  destruct (endpoint_result w "http://api.weatherstack.com/current" _ _ _) as [|e2].
  { exfalso. apply Is_true_false_2 in Hp; [done | set_solver]. }
  by exists e2.
Qed.

Lemma fetch_all_failed_witness :
  exists e_last,
    endpoint_result (quiet_world key_only unreachable 0 (provisioned []))
      "http://api.weatherstack.com/current" "Jakarta" "secret" "m"
    = Raise e_last
    /\ fetch_weather_from_api "Jakarta" "secret" "m"
         (quiet_world key_only unreachable 0 (provisioned []))
       = (Raise (Exn RuntimeError
                   ("Failed calling Weatherstack API (https/http). Last error: "
                    +:+ exn_text e_last)),
          with_trace ([] ++ visited base_urls "Jakarta" "secret" "m")
            (quiet_world key_only unreachable 0 (provisioned []))).
Proof.
  apply (fetch_all_failed "Jakarta" "secret" "m"
           (quiet_world key_only unreachable 0 (provisioned []))).
  intros url _. reflexivity.
Defined.

(** C6.  When every endpoint candidate answers with a payload whose
    [success] flag is [False], [fetch_weather_from_api] raises a
    [RuntimeError], and when the payload's [error] object carries a [code]
    the text of that error contains the code as [str] prints it. *)
Theorem fetch_reports_error_code {rt : Runtime} (query api_key units : string) (w : world)
    (fields : list (string * json)) :
  (forall url, url ∈ base_urls ->
               http w url (request_params query api_key units)
               = Replied (Ok (JDict fields))) ->
  dict_lookup fields "success" = Some (JBool false) ->
  exists e,
    fetch_weather_from_api query api_key units w
    = (Raise e, with_trace (trace w ++ visited base_urls query api_key units) w)
    /\ exn_class e = RuntimeError
    /\ (forall err code,
          dict_lookup fields "error" = Some (JDict err) ->
          dict_lookup err "code" = Some code ->
          occurs_in (py_str code) (exn_text e)).
Proof.
  intros Hhttp Hflag.
  destruct (check_payload_api_error fields Hflag) as (e0 & Hcheck & Hcode).
  assert (Hres : forall url, url ∈ base_urls ->
                   endpoint_result w url query api_key units = Raise e0).
  { intros url Hin. unfold endpoint_result. by rewrite (Hhttp url Hin). }
  unfold fetch_weather_from_api.
  rewrite fetch_loop_all_failed by (intros url Hin; by rewrite (Hres url Hin)).
  unfold base_urls in *. simpl last_failure.
  rewrite !Hres by set_solver.
  eexists. split; [reflexivity | split; [reflexivity|]].
  intros err code Herr Hc. rewrite (Hcode err code Herr Hc). simpl.
  apply occurs_in_prefixed.
  apply (occurs_in_middle "Weatherstack API error (code=").
Qed.

Lemma fetch_reports_error_code_witness :
  exists e,
    fetch_weather_from_api "Jakarta" "secret" "m"
      (quiet_world key_only (always (JDict api_error_fields)) 0 (provisioned []))
    = (Raise e,
       with_trace ([] ++ visited base_urls "Jakarta" "secret" "m")
         (quiet_world key_only (always (JDict api_error_fields)) 0 (provisioned [])))
    /\ exn_class e = RuntimeError
    /\ occurs_in "101" (exn_text e).
Proof.
  destruct (fetch_reports_error_code "Jakarta" "secret" "m"
              (quiet_world key_only (always (JDict api_error_fields)) 0 (provisioned []))
              api_error_fields) as (e & Hrun & Hclass & Hcode).
  - intros url _. reflexivity.
  - reflexivity.
  - exists e. split; [exact Hrun | split; [exact Hclass|]].
    apply (Hcode [ ("code", JInt 101);
                   ("type", JStr "invalid_access_key");
                   ("info", JStr "You have not supplied a valid API Access Key.") ]
             (JInt 101)); reflexivity.
Defined.

(** What the loop returns has passed both checks; when it is a mapping, it
    has the key [current] and its [success] entry is not [False]. *)
Lemma fetch_returns_checked {rt : Runtime} (query api_key units : string)
    (w w' : world) (data : json) :
  fetch_weather_from_api query api_key units w = (Ok data, w') ->
  success_is_false data = false
  /\ py_in "current" data = Ok true
  /\ (forall fields, data = JDict fields ->
                     is_Some (dict_lookup fields "current")
                     /\ dict_lookup fields "success" <> Some (JBool false)).
Proof.
  intros Hrun. unfold fetch_weather_from_api in Hrun.
  destruct (fetch_loop_checked _ _ _ base_urls None w w' data Hrun) as [Hflag Hin].
  clear Hrun. split; [exact Hflag | split; [exact Hin|]].
  intros fields ->. unfold success_is_false in Hflag. unfold py_in in Hin. split.
  - destruct (dict_lookup fields "current"); [eauto | discriminate Hin].
  - intros Heq. rewrite Heq in Hflag. discriminate Hflag.
Qed.

(** C2 fails on the code.  The first check is guarded by
    [isinstance(data, dict)], the second is not: [in] also holds of a list
    with the element [current] (and of a string with that substring), so a
    body that is the JSON list with the one string [current] is returned,
    although it is no mapping and has no key; the loader then fails on its
    first [.get]. *)
Theorem fetch_returns_a_list :
  fetch_weather_from_api "Jakarta" "secret" "m"
    (quiet_world key_only (always (JList [JStr "current"])) 0 (provisioned []))
  = (Ok (JList [JStr "current"]),
     with_trace (visited ["https://api.weatherstack.com/current"] "Jakarta" "secret" "m")
       (quiet_world key_only (always (JList [JStr "current"])) 0 (provisioned [])))
  /\ py_get (JList [JStr "current"]) "current"
     = Raise (Exn AttributeError "'list' object has no attribute 'get'")
  /\ load_to_postgres (JList [JStr "current"])
       (quiet_world key_only (always (JList [JStr "current"])) 0 (provisioned []))
     = (Raise (Exn AttributeError "'list' object has no attribute 'get'"),
        quiet_world key_only (always (JList [JStr "current"])) 0 (provisioned [])).
Proof. split; [|split]; vm_compute; reflexivity. Qed.

(** ** Database steps *)

Section Database.
Context {rt : Runtime}.

Lemma with_db_same (w : world) : with_db (db w) w = w.
Proof. by destruct w. Qed.

(** A database step on a reachable server: the statement runs on the
    database as it is and the connection is closed either way. *)
Lemma with_connection_run (statement : string) (run : world -> result database)
    (w : world) (p : conn_params) :
  _pg_conn_params (env w) = Ok p -> pg_up w = true ->
  (forall t, run (with_trace t w) = run w) ->
  with_connection statement run w
  = match run w with
    | Ok d => (Ok tt, with_trace (trace w ++ pg_session p statement) (with_db d w))
    | Raise e => (Raise e, with_trace (trace w ++ pg_session p statement) w)
    end.
Proof.
  intros Hp Hup Hstable.
  unfold with_connection, connect, try_finally, execute, close, emit.
  unfold mbind, M_bind. rewrite Hp, Hup. rewrite Hstable.
  unfold pg_session.
  destruct (run w) as [d | e]; simpl; f_equal; unfold with_trace, with_db; simpl;
    by rewrite <- !app_assoc.
Qed.

(** A server that cannot be reached: the statement is not run. *)
Lemma with_connection_down (statement : string) (run : world -> result database)
    (w : world) (p : conn_params) :
  _pg_conn_params (env w) = Ok p -> pg_up w = false ->
  with_connection statement run w
  = (Raise (Exn (LibraryError "psycopg2.OperationalError") "connection failed"),
     with_trace (trace w ++ [EvPgConnect p]) w).
Proof.
  intros Hp Hup. unfold with_connection, connect. unfold mbind, M_bind.
  by rewrite Hp, Hup.
Qed.

Lemma table_is_not_index : TABLE <> INDEX.
Proof. done. Qed.

Lemma create_table_sql_ensures (w : world) :
  relations (db w) !! TABLE = None \/ relations (db w) !! TABLE = Some RelTable ->
  relations (db w) !! INDEX = None
  \/ relations (db w) !! INDEX = Some (RelIndex TABLE) ->
  CREATE_TABLE_SQL w = Ok (ensured (db w)).
Proof.
  unfold CREATE_TABLE_SQL. generalize (db w) as d. clear w.
  intros d Ht Hi. unfold create_table_if_not_exists, create_index_if_not_exists, ensured.
  destruct d as [rels rows]. simpl in *.
  destruct Ht as [Ht | Ht]; rewrite Ht; simpl.
  - rewrite lookup_insert_eq. rewrite lookup_insert_ne by apply table_is_not_index.
    destruct Hi as [Hi | Hi]; rewrite Hi; simpl; [done|].
    f_equal. f_equal. symmetry. apply insert_id.
    by rewrite lookup_insert_ne by apply table_is_not_index.
  - rewrite Ht. rewrite (insert_id rels TABLE RelTable Ht).
    destruct Hi as [Hi | Hi]; rewrite Hi; simpl; [done|].
    by rewrite (insert_id rels INDEX (RelIndex TABLE) Hi).
Qed.

Lemma ensured_table (d : database) : relations (ensured d) !! TABLE = Some RelTable.
Proof.
  unfold ensured. simpl.
  rewrite lookup_insert_ne by (intros H; symmetry in H; by apply table_is_not_index).
  apply lookup_insert_eq.
Qed.

Lemma ensured_index (d : database) : relations (ensured d) !! INDEX = Some (RelIndex TABLE).
Proof. unfold ensured. simpl. apply lookup_insert_eq. Qed.

Lemma ensured_other (d : database) (name : string) :
  name <> TABLE -> name <> INDEX -> relations (ensured d) !! name = relations d !! name.
Proof.
  intros Ht Hi. unfold ensured. simpl.
  rewrite lookup_insert_ne by congruence. by rewrite lookup_insert_ne by congruence.
Qed.

Lemma ensured_twice (d : database) : ensured (ensured d) = ensured d.
Proof.
  unfold ensured at 1. rewrite ensured_table.
  rewrite (insert_id _ TABLE RelTable (ensured_table d)).
  rewrite (insert_id _ INDEX (RelIndex TABLE) (ensured_index d)).
  by destruct (ensured d).
Qed.

End Database.

(** ** Schema provisioning *)

(** C8.  On a reachable server where the names [weather_current] and
    [idx_weather_current_fetched_at] are free or already name the table and
    its index, [ensure_table] does not raise and leaves the table and the
    index in the catalog, each bound once under its name, without touching
    other relations or the rows of a table that was there; a second call
    right after does not raise either and leaves the database exactly as
    the first call left it. *)
Theorem ensure_table_idempotent {rt : Runtime} (w : world) (p : conn_params) :
  _pg_conn_params (env w) = Ok p ->
  pg_up w = true ->
  relations (db w) !! TABLE = None \/ relations (db w) !! TABLE = Some RelTable ->
  relations (db w) !! INDEX = None \/ relations (db w) !! INDEX = Some (RelIndex TABLE) ->
  let w1 := with_trace (trace w ++ pg_session p "CREATE_TABLE_SQL")
              (with_db (ensured (db w)) w) in
  ensure_table w = (Ok tt, w1)
  /\ relations (db w1) !! TABLE = Some RelTable
  /\ relations (db w1) !! INDEX = Some (RelIndex TABLE)
  /\ (forall name, name <> TABLE -> name <> INDEX ->
                   relations (db w1) !! name = relations (db w) !! name)
  /\ (relations (db w) !! TABLE = Some RelTable ->
      weather_current (db w1) = weather_current (db w))
  /\ ensure_table w1 = (Ok tt, with_trace (trace w1 ++ pg_session p "CREATE_TABLE_SQL") w1).
Proof.
  intros Hp Hup Ht Hi w1.
  assert (Hfirst : ensure_table w = (Ok tt, w1)).
  { unfold ensure_table. rewrite (with_connection_run _ _ w p Hp Hup) by reflexivity.
    by rewrite (create_table_sql_ensures w Ht Hi). }
  split; [exact Hfirst|].
  split; [apply ensured_table|].
  split; [apply ensured_index|].
  split; [apply ensured_other|].
  split.
  - intros Hthere. subst w1. simpl. by rewrite Hthere.
  - unfold ensure_table. rewrite (with_connection_run _ _ w1 p Hp Hup) by reflexivity.
    rewrite (create_table_sql_ensures w1).
    + subst w1. simpl db. rewrite ensured_twice. reflexivity.
    + right. apply ensured_table.
    + right. apply ensured_index.
Qed.

Lemma ensure_table_idempotent_witness :
  let w := quiet_world ∅ unreachable 0 (Database ∅ []) in
  let p := ConnParams "localhost" 5433 "weatherdb" "weather" "weather" in
  let w1 := with_trace (trace w ++ pg_session p "CREATE_TABLE_SQL")
              (with_db (ensured (db w)) w) in
  ensure_table w = (Ok tt, w1)
  /\ relations (db w1) !! TABLE = Some RelTable
  /\ relations (db w1) !! INDEX = Some (RelIndex TABLE)
  /\ (forall name, name <> TABLE -> name <> INDEX ->
                   relations (db w1) !! name = relations (db w) !! name)
  /\ (relations (db w) !! TABLE = Some RelTable ->
      weather_current (db w1) = weather_current (db w))
  /\ ensure_table w1 = (Ok tt, with_trace (trace w1 ++ pg_session p "CREATE_TABLE_SQL") w1).
Proof.
  apply (ensure_table_idempotent (quiet_world ∅ unreachable 0 (Database ∅ []))
           (ConnParams "localhost" 5433 "weatherdb" "weather" "weather")).
  - reflexivity.
  - reflexivity.
  - left. reflexivity.
  - left. reflexivity.
Defined.

(** ** Retention *)

Lemma kept_rows_all (c : Z) (rows : list stored_row) :
  (forall r, r ∈ rows -> c <= row_fetched_at r) -> kept_rows c rows = rows.
Proof.
  unfold kept_rows. induction rows as [|r rows IH]; intros Hall; [done|].
  rewrite filter_cons_True.
  - f_equal. apply IH. intros r' Hin. apply Hall. by apply list_elem_of_further.
  - specialize (Hall r (list_elem_of_here _ _)). lia.
Qed.

(** C7.  On a reachable server that has the table, [cleanup_old_rows]
    does not raise and keeps, in their order, exactly the rows whose
    [fetched_at] is not before the cutoff, which is the server's [now()]
    less two days: no kept row is older than the cutoff, every row at or
    after the cutoff is kept as it was, nothing else appears, and when no
    row is older than the cutoff the database is left as it was. *)
Theorem cleanup_old_rows_prunes {rt : Runtime} (w : world) (p : conn_params) :
  _pg_conn_params (env w) = Ok p ->
  pg_up w = true ->
  relations (db w) !! TABLE = Some RelTable ->
  let c := pg_now w - 2 * usec_per_day in
  let kept := kept_rows c (weather_current (db w)) in
  cleanup_old_rows w
  = (Ok tt, with_trace (trace w ++ pg_session p DELETE_TEXT)
              (with_db (Database (relations (db w)) kept) w))
  /\ (forall r, r ∈ kept <-> r ∈ weather_current (db w) /\ c <= row_fetched_at r)
  /\ kept `sublist_of` weather_current (db w)
  /\ ((forall r, r ∈ weather_current (db w) -> c <= row_fetched_at r) ->
      Database (relations (db w)) kept = db w)
  /\ kept_rows c kept = kept.
Proof.
  intros Hp Hup Htable c kept.
  split; [|split; [|split; [|split]]].
  - unfold cleanup_old_rows. rewrite (with_connection_run _ _ w p Hp Hup) by reflexivity.
    unfold DELETE_SQL. rewrite Htable. reflexivity.
  - intros r. unfold kept, kept_rows. rewrite list_elem_of_filter. split.
    + intros [Hr Hin]. split; [done | lia].
    + intros [Hin Hr]. split; [lia | done].
  - apply sublist_filter.
  - intros Hall. unfold kept. rewrite (kept_rows_all c _ Hall). by destruct (db w).
  - apply kept_rows_all. intros r. unfold kept, kept_rows.
    rewrite list_elem_of_filter. intros [Hr _]. lia.
Qed.

(** ** The loader *)
Section Loader.
Context {rt : Runtime}.

Lemma section_read (fields : list (string * json)) (name : string) :
  section_ok fields name = true ->
  section (JDict fields) name = Ok (JDict (section_fields fields name)).
Proof.
  unfold section_ok, section, section_fields, py_or. simpl.
  destruct (dict_lookup fields name) as [[| | | | | |inner]|]; simpl; try done.
  - by intros ->%negb_true_iff.
  - by intros ->%negb_true_iff.
  - by intros ->%negb_true_iff.
  - by intros ->%negb_true_iff.
  - by intros ->%negb_true_iff.
  - by destruct inner.
Qed.

Lemma section_missing (fields : list (string * json)) (name : string) :
  missing_or_null fields name ->
  section_ok fields name = true /\ section_fields fields name = [].
Proof. unfold section_ok, section_fields. by intros [-> | ->]. Qed.

Lemma py_get_field (fields : list (string * json)) (sec key : string) :
  py_get (JDict (section_fields fields sec)) key = Ok (field fields sec key).
Proof. reflexivity. Qed.

Lemma coerce_float_dict (inner : list (string * json)) (key : string) :
  coerce_float (JDict inner) key
  = to_double (match dict_lookup inner key with Some x => x | None => JNull end).
Proof.
  unfold coerce_float, to_double. simpl.
  destruct (dict_lookup inner key) as [x|] eqn:Hx; simpl; [|done].
  destruct x; simpl; try done; by rewrite Hx.
Qed.

Lemma coerce_float_field (fields : list (string * json)) (sec key : string) :
  coerce_float (JDict (section_fields fields sec)) key = to_double (field fields sec key).
Proof. apply coerce_float_dict. Qed.

Lemma build_row_flattens (fields : list (string * json)) (lat lon : json) :
  section_ok fields "request" = true ->
  section_ok fields "location" = true ->
  section_ok fields "current" = true ->
  to_double (field fields "location" "lat") = Ok lat ->
  to_double (field fields "location" "lon") = Ok lon ->
  build_row (JDict fields) = Ok (flat_columns fields lat lon ++ [("raw", JDict fields)]).
Proof.
  intros Hr Hl Hc Hlat Hlon. unfold build_row.
  rewrite (section_read _ _ Hr), (section_read _ _ Hl), (section_read _ _ Hc).
  unfold mbind, result_bind.
  rewrite !py_get_field, !coerce_float_field, Hlat, Hlon.
  reflexivity.
Qed.

Lemma field_missing (fields : list (string * json)) (sec key : string) :
  missing_or_null fields sec \/ missing_or_null (section_fields fields sec) key ->
  field fields sec key = JNull.
Proof.
  unfold field. intros [Hsec | [Hkey | Hkey]].
  - by rewrite (proj2 (section_missing _ _ Hsec)).
  - by rewrite Hkey.
  - by rewrite Hkey.
Qed.

Lemma to_double_cases (x y : json) :
  to_double x = Ok y ->
  (x = JNull /\ y = JNull) \/ (x <> JNull /\ exists f, py_float x = Ok f /\ y = JFloat f).
Proof.
  unfold to_double.
  destruct x as [|b|n|g|s|items|inner]; try (intros [= <-]; by left);
    (destruct (py_float _) as [v|] eqn:Hv; simpl; [|done]);
    intros [= <-]; right; split; try done; by exists v.
Qed.

(** The parameters [cursor.execute] gets for a row that [build_row] made. *)
Lemma params_of_row (fields : list (string * json)) (lat lon : json) :
  param_set (map (fun kv => (kv.1, Plain kv.2))
               (flat_columns fields lat lon ++ [("raw", JDict fields)]))
    "raw" (Json (JDict fields))
  = flattened fields lat lon.
Proof. reflexivity. Qed.

Lemma bind_flattened (fields : list (string * json)) (lat lon : json) :
  bind_placeholders insert_columns (flattened fields lat lon)
  = Ok (flattened fields lat lon).
Proof. reflexivity. Qed.

Lemma not_null_flattened (fields : list (string * json)) (lat lon : json) :
  forallb cell_not_null_ok (flattened fields lat lon)
  = negb (is_sql_null (Plain (field fields "request" "query"))).
Proof.
  unfold flattened, flat_columns. simpl.
  by destruct (field fields "request" "query").
Qed.

(** The loader once the row is built, on a reachable server. *)
Lemma load_run (api_payload : json) (row : list (string * json)) (raw : json)
    (w : world) (p : conn_params) :
  build_row api_payload = Ok row ->
  dict_lookup row "raw" = Some raw ->
  _pg_conn_params (env w) = Ok p -> pg_up w = true ->
  let params := param_set (map (fun kv => (kv.1, Plain kv.2)) row) "raw" (Json raw) in
  load_to_postgres api_payload w
  = match INSERT_SQL params w with
    | Ok d => (Ok tt, with_trace (trace w ++ pg_session p "insert_sql") (with_db d w))
    | Raise e => (Raise e, with_trace (trace w ++ pg_session p "insert_sql") w)
    end.
Proof.
  intros Hrow Hraw Hp Hup params.
  unfold load_to_postgres, connect, try_finally, execute, close, emit, lift.
  unfold mbind, M_bind. rewrite Hrow, Hp, Hup, Hraw. fold params.
  change (INSERT_SQL params (with_trace _ w)) with (INSERT_SQL params w).
  unfold pg_session.
  destruct (INSERT_SQL params w) as [d | e]; simpl; f_equal; unfold with_trace, with_db;
    simpl; by rewrite <- !app_assoc.
Qed.

(** A payload whose row cannot be built reaches no database. *)
Lemma load_row_error (api_payload : json) (e : exn) (w : world) :
  build_row api_payload = Raise e -> load_to_postgres api_payload w = (Raise e, w).
Proof.
  intros Hrow. unfold load_to_postgres, lift. unfold mbind, M_bind. by rewrite Hrow.
Qed.

End Loader.

Ltac each_column H :=
  repeat (apply elem_of_cons in H as [-> | H]); [.. | by apply elem_of_nil in H].

(** C3, as the code has it.  [load_to_postgres] reads the three sections
    defensively.  A section that is missing from the payload or null is
    read as the empty mapping, and every sub-field of such a section is
    null.  When the three sections are missing, null or mappings and the
    coordinates are absent or coercible, building the row raises nothing,
    and each column of a missing or null section holds null.  A coordinate
    is null exactly when [lat] (or [lon]) is absent or null, and is
    otherwise the float that [float] returns for it; it is never a zero
    put in for a missing value.  On a reachable server that has the table
    and takes the values, [load_to_postgres] then stores the row, with
    null in each column of a missing or null location or current section,
    provided the query text is not null.  When the query text is null, as
    it is whenever the request section is missing or null, the null does
    not become a column value: the table's NOT NULL constraint on
    [query_text] makes [load_to_postgres] raise, and no row is stored. *)
Theorem load_reads_defensively {rt : Runtime} (fields : list (string * json))
    (lat lon : json) :
  (forall name, missing_or_null fields name ->
                section (JDict fields) name = Ok (JDict []))
  /\ (forall sec key,
        missing_or_null fields sec \/ missing_or_null (section_fields fields sec) key ->
        field fields sec key = JNull)
  /\ (section_ok fields "request" = true ->
      section_ok fields "location" = true ->
      section_ok fields "current" = true ->
      to_double (field fields "location" "lat") = Ok lat ->
      to_double (field fields "location" "lon") = Ok lon ->
      let row := flat_columns fields lat lon ++ [("raw", JDict fields)] in
      build_row (JDict fields) = Ok row
      /\ (missing_or_null fields "request" -> all_null row request_columns)
      /\ (missing_or_null fields "location" -> all_null row location_columns)
      /\ (missing_or_null fields "current" -> all_null row current_columns)
      /\ (field fields "location" "lat" = JNull -> lat = JNull)
      /\ (field fields "location" "lon" = JNull -> lon = JNull)
      /\ (field fields "location" "lat" <> JNull ->
          exists f, py_float (field fields "location" "lat") = Ok f /\ lat = JFloat f)
      /\ (field fields "location" "lon" <> JNull ->
          exists f, py_float (field fields "location" "lon") = Ok f /\ lon = JFloat f))
  /\ (missing_or_null fields "request" ->
      missing_or_null fields "location" ->
      missing_or_null fields "current" ->
      build_row (JDict fields)
      = Ok (map (fun c => (c, JNull))
              (request_columns ++ location_columns ++ current_columns)
            ++ [("raw", JDict fields)]))
  /\ (forall (w : world) (p : conn_params),
      section_ok fields "request" = true ->
      section_ok fields "location" = true ->
      section_ok fields "current" = true ->
      to_double (field fields "location" "lat") = Ok lat ->
      to_double (field fields "location" "lon") = Ok lon ->
      _pg_conn_params (env w) = Ok p ->
      pg_up w = true ->
      relations (db w) !! TABLE = Some RelTable ->
      forallb (cell_accepted w) (flattened fields lat lon) = true ->
      let cells := flattened fields lat lon in
      let sent := trace w ++ pg_session p "insert_sql" in
      (field fields "request" "query" <> JNull ->
       load_to_postgres (JDict fields) w
       = (Ok tt,
          with_trace sent
            (with_db (Database (relations (db w))
                        (weather_current (db w) ++ [StoredRow (pg_now w) cells])) w))
       /\ (missing_or_null fields "location" ->
           forall c, c ∈ location_columns -> param_lookup cells c = Some (Plain JNull))
       /\ (missing_or_null fields "current" ->
           forall c, c ∈ current_columns -> param_lookup cells c = Some (Plain JNull)))
      /\ (field fields "request" "query" = JNull ->
          load_to_postgres (JDict fields) w
          = (Raise (pg_error "NotNullViolation" "null value violates not-null constraint"),
             with_trace sent w))
      /\ (missing_or_null fields "request" -> field fields "request" "query" = JNull)).
Proof.
  split; [|split; [|split; [|split]]].
  - intros name Hname. destruct (section_missing _ _ Hname) as [Hok Hnil].
    by rewrite (section_read _ _ Hok), Hnil.
  - apply field_missing.
  - intros Hr Hl Hc Hlat Hlon row.
    split; [by apply build_row_flattens|].
    assert (Hlat' := to_double_cases _ _ Hlat).
    assert (Hlon' := to_double_cases _ _ Hlon).
    split; [|split; [|split; [|split; [|split; [|split]]]]].
    + intros Hm c Hin. each_column Hin. simpl.
      by rewrite (field_missing fields "request") by by left.
    + intros Hm c Hin.
      assert (Hnull : forall key, field fields "location" key = JNull)
        by (intros key; apply field_missing; by left).
      destruct Hlat' as [[_ ->] | [Hne _]]; [|by rewrite Hnull in Hne].
      destruct Hlon' as [[_ ->] | [Hne _]]; [|by rewrite Hnull in Hne].
      each_column Hin; simpl; by rewrite ?Hnull.
    + intros Hm c Hin.
      assert (Hnull : forall key, field fields "current" key = JNull)
        by (intros key; apply field_missing; by left).
      each_column Hin; simpl; by rewrite ?Hnull.
    + intros Hnull. by destruct Hlat' as [[_ ->] | [Hne _]].
    + intros Hnull. by destruct Hlon' as [[_ ->] | [Hne _]].
    + intros Hne. by destruct Hlat' as [[Hnull _] | [_ Hf]].
    + intros Hne. by destruct Hlon' as [[Hnull _] | [_ Hf]].
  - intros Hr Hl Hc.
    assert (Hnull : forall sec, missing_or_null fields sec ->
                                forall key, field fields sec key = JNull)
      by (intros sec Hsec key; apply field_missing; by left).
    rewrite (build_row_flattens fields JNull JNull);
      try (by apply section_missing); try (by rewrite (Hnull _ Hl)).
    unfold flat_columns. by rewrite !(Hnull _ Hr), !(Hnull _ Hl), !(Hnull _ Hc).
  - intros w p Hr Hl Hc Hlat Hlon Hp Hup Htable Htaken cells sent.
    assert (Hrun : load_to_postgres (JDict fields) w
                   = match INSERT_SQL cells w with
                     | Ok d => (Ok tt, with_trace sent (with_db d w))
                     | Raise e => (Raise e, with_trace sent w)
                     end).
    { rewrite (load_run (JDict fields) _ (JDict fields) w p
                 (build_row_flattens fields lat lon Hr Hl Hc Hlat Hlon) eq_refl Hp Hup).
      by rewrite params_of_row. }
    assert (Hins : INSERT_SQL cells w
                   = if is_sql_null (Plain (field fields "request" "query"))
                     then Raise (pg_error "NotNullViolation"
                                   "null value violates not-null constraint")
                     else Ok (Database (relations (db w))
                                (weather_current (db w) ++ [StoredRow (pg_now w) cells]))).
    { unfold INSERT_SQL, cells. rewrite bind_flattened. unfold mbind, result_bind.
      rewrite Htable, Htaken, not_null_flattened.
      by destruct (is_sql_null (Plain (field fields "request" "query"))). }
    rewrite Hrun, Hins.
    split; [|split].
    + intros Hquery. split; [|split].
      * by destruct (field fields "request" "query").
      * intros Hm c Hin.
        assert (Hnull : forall key, field fields "location" key = JNull)
          by (intros key; apply field_missing; by left).
        destruct (to_double_cases _ _ Hlat) as [[_ ->] | [Hne _]];
          [|by rewrite Hnull in Hne].
        destruct (to_double_cases _ _ Hlon) as [[_ ->] | [Hne _]];
          [|by rewrite Hnull in Hne].
        each_column Hin; unfold cells, flattened, flat_columns; simpl;
          by rewrite ?Hnull.
      * intros Hm c Hin.
        assert (Hnull : forall key, field fields "current" key = JNull)
          by (intros key; apply field_missing; by left).
        each_column Hin; unfold cells, flattened, flat_columns; simpl;
          by rewrite ?Hnull.
    + by intros ->.
    + intros Hm. apply field_missing. by left.
Qed.

(** A payload without a location section and with a null current section
    is stored, with null in every column of the two sections. *)
Lemma load_reads_defensively_witness :
  let fields := [("request", JDict [("query", JStr "Jakarta")]); ("current", JNull)] in
  let w := quiet_world key_only (always example_payload) 1000 (provisioned []) in
  load_to_postgres (JDict fields) w
  = (Ok tt,
     with_trace (trace w ++ pg_session
                   (ConnParams "localhost" 5433 "weatherdb" "weather" "weather")
                   "insert_sql")
       (with_db (Database (relations (db w))
                   (weather_current (db w)
                    ++ [StoredRow 1000
                          [ ("query_text", Plain (JStr "Jakarta"));
                            ("location_name", Plain JNull); ("region", Plain JNull);
                            ("country", Plain JNull); ("latitude", Plain JNull);
                            ("longitude", Plain JNull);
                            ("observation_time", Plain JNull);
                            ("temperature_c", Plain JNull); ("humidity", Plain JNull);
                            ("wind_speed", Plain JNull); ("wind_dir", Plain JNull);
                            ("pressure", Plain JNull); ("precip", Plain JNull);
                            ("cloudcover", Plain JNull); ("uv_index", Plain JNull);
                            ("visibility", Plain JNull); ("is_day", Plain JNull);
                            ("raw", Json (JDict fields)) ]])) w)).
Proof.
  exact (proj1 (proj1 (proj2 (proj2 (proj2 (proj2
           (load_reads_defensively
              [("request", JDict [("query", JStr "Jakarta")]); ("current", JNull)]
              JNull JNull))))
           (quiet_world key_only (always example_payload) 1000 (provisioned []))
           (ConnParams "localhost" 5433 "weatherdb" "weather" "weather")
           eq_refl eq_refl eq_refl eq_refl eq_refl eq_refl eq_refl eq_refl eq_refl)
           ltac:(discriminate))).
Defined.

(** C3 fails as stated: in a payload without a request section the
    section is read as the empty mapping and the query text as null, but
    the null is no column value: [query_text] is NOT NULL in the table, the
    loader raises and the table gets no row. *)
Lemma load_refuses_missing_request :
  let fields := [ ("location", JDict [("name", JStr "Jakarta")]);
                  ("current", JDict [("temperature", JInt 29)]) ] in
  let w := quiet_world key_only (always example_payload) 1000 (provisioned []) in
  dict_lookup fields "request" = None
  /\ section (JDict fields) "request" = Ok (JDict [])
  /\ load_to_postgres (JDict fields) w
     = (Raise (pg_error "NotNullViolation" "null value violates not-null constraint"),
        with_trace (trace w ++ pg_session
                      (ConnParams "localhost" 5433 "weatherdb" "weather" "weather")
                      "insert_sql") w)
  /\ weather_current (db (load_to_postgres (JDict fields) w).2) = [].
Proof. split; [|split; [|split]]; vm_compute; reflexivity. Qed.

(** C1, as the code has it.  For a payload whose three sections are
    missing, null or mappings, whose coordinates are absent or coercible,
    whose query text is not null and whose values the server takes, on a
    reachable server that has the table, [load_to_postgres] does not raise
    and appends exactly one row: its columns are the payload's fields
    under the mapping, its [fetched_at] is the server's [now()], and its
    archive column holds the payload itself. *)
Theorem load_inserts_one_row {rt : Runtime} (w : world) (p : conn_params)
    (fields : list (string * json)) (lat lon : json) :
  section_ok fields "request" = true ->
  section_ok fields "location" = true ->
  section_ok fields "current" = true ->
  to_double (field fields "location" "lat") = Ok lat ->
  to_double (field fields "location" "lon") = Ok lon ->
  field fields "request" "query" <> JNull ->
  _pg_conn_params (env w) = Ok p ->
  pg_up w = true ->
  relations (db w) !! TABLE = Some RelTable ->
  forallb (cell_accepted w) (flattened fields lat lon) = true ->
  load_to_postgres (JDict fields) w
  = (Ok tt,
     with_trace (trace w ++ pg_session p "insert_sql")
       (with_db (Database (relations (db w))
                   (weather_current (db w)
                    ++ [StoredRow (pg_now w) (flattened fields lat lon)])) w))
  /\ param_lookup (flattened fields lat lon) "raw" = Some (Json (JDict fields)).
Proof.
  intros Hr Hl Hc Hlat Hlon Hquery Hp Hup Htable Htaken.
  split; [|reflexivity].
  rewrite (load_run (JDict fields) _ (JDict fields) w p
             (build_row_flattens fields lat lon Hr Hl Hc Hlat Hlon) eq_refl Hp Hup).
  rewrite params_of_row. unfold INSERT_SQL.
  rewrite bind_flattened. unfold mbind, result_bind.
  rewrite Htable, Htaken, not_null_flattened.
  by destruct (field fields "request" "query").
Qed.

(** The end-to-end example: the payload for Jakarta is stored as one row
    with [query_text] Jakarta, [latitude] -6.21, [temperature_c] 29,
    [humidity] 70 and the payload in [raw]. *)
Lemma load_inserts_one_row_witness :
  let w := quiet_world key_only (always example_payload) 1000 (provisioned []) in
  let cells :=
    [ ("query_text", Plain (JStr "Jakarta"));
      ("location_name", Plain (JStr "Jakarta"));
      ("region", Plain JNull);
      ("country", Plain JNull);
      ("latitude", Plain (JFloat (-6.21)%float));
      ("longitude", Plain (JFloat 106.85%float));
      ("observation_time", Plain JNull);
      ("temperature_c", Plain (JInt 29));
      ("humidity", Plain (JInt 70));
      ("wind_speed", Plain JNull);
      ("wind_dir", Plain JNull);
      ("pressure", Plain JNull);
      ("precip", Plain JNull);
      ("cloudcover", Plain JNull);
      ("uv_index", Plain JNull);
      ("visibility", Plain JNull);
      ("is_day", Plain JNull);
      ("raw", Json example_payload) ] in
  load_to_postgres example_payload w
  = (Ok tt,
     with_trace (trace w ++ pg_session
                   (ConnParams "localhost" 5433 "weatherdb" "weather" "weather")
                   "insert_sql")
       (with_db (Database (relations (db w))
                   (weather_current (db w) ++ [StoredRow (pg_now w) cells])) w))
  /\ param_lookup cells "raw" = Some (Json example_payload).
Proof.
  exact (load_inserts_one_row
           (quiet_world key_only (always example_payload) 1000 (provisioned []))
           (ConnParams "localhost" 5433 "weatherdb" "weather" "weather")
           [ ("request", JDict [("query", JStr "Jakarta")]);
             ("location", JDict [("name", JStr "Jakarta"); ("lat", JStr "-6.21");
                                 ("lon", JStr "106.85")]);
             ("current", JDict [("temperature", JInt 29); ("humidity", JInt 70)]) ]
           (JFloat (-6.21)%float) (JFloat 106.85%float)
           eq_refl eq_refl eq_refl eq_refl eq_refl
           ltac:(discriminate)
           eq_refl eq_refl eq_refl eq_refl).
Defined.

(** C1 fails as stated: a payload that has a [current] section and a
    latitude that is no number makes the loader raise while it builds the
    row, before any connection; the table gets no row. *)
Lemma load_rejects_uncoercible_latitude :
  let w := quiet_world key_only (always uncoercible_payload) 1000 (provisioned []) in
  py_in "current" uncoercible_payload = Ok true
  /\ load_to_postgres uncoercible_payload w
     = (Raise (Exn ValueError "could not convert string to float: 'north'"), w)
  /\ weather_current (db w) = [].
Proof. split; [|split]; vm_compute; reflexivity. Qed.

Lemma cleanup_old_rows_prunes_witness :
  let day := usec_per_day in
  let rows := [StoredRow (1 * day) []; StoredRow (9 * day) []; StoredRow (8 * day) []] in
  let w := quiet_world ∅ unreachable (10 * day) (provisioned rows) in
  cleanup_old_rows w
  = (Ok tt,
     with_trace (trace w ++ pg_session
                   (ConnParams "localhost" 5433 "weatherdb" "weather" "weather")
                   DELETE_TEXT)
       (with_db (Database (relations (db w))
                   [StoredRow (9 * day) []; StoredRow (8 * day) []]) w)).
Proof.
  exact (proj1 (cleanup_old_rows_prunes
                  (quiet_world ∅ unreachable (10 * usec_per_day)
                     (provisioned [ StoredRow (1 * usec_per_day) [];
                                    StoredRow (9 * usec_per_day) [];
                                    StoredRow (8 * usec_per_day) [] ]))
                  (ConnParams "localhost" 5433 "weatherdb" "weather" "weather")
                  eq_refl eq_refl eq_refl)).
Defined.

(** The table's NOT NULL constraint on [query_text]: a payload that is
    readable but has no query text is refused by the server, and the table
    is left as it was. *)
Lemma load_without_query_is_refused {rt : Runtime} (w : world) (p : conn_params)
    (fields : list (string * json)) (lat lon : json) :
  section_ok fields "request" = true ->
  section_ok fields "location" = true ->
  section_ok fields "current" = true ->
  to_double (field fields "location" "lat") = Ok lat ->
  to_double (field fields "location" "lon") = Ok lon ->
  field fields "request" "query" = JNull ->
  _pg_conn_params (env w) = Ok p ->
  pg_up w = true ->
  relations (db w) !! TABLE = Some RelTable ->
  forallb (cell_accepted w) (flattened fields lat lon) = true ->
  load_to_postgres (JDict fields) w
  = (Raise (pg_error "NotNullViolation" "null value violates not-null constraint"),
     with_trace (trace w ++ pg_session p "insert_sql") w).
Proof.
  intros Hr Hl Hc Hlat Hlon Hquery Hp Hup Htable Htaken.
  rewrite (load_run (JDict fields) _ (JDict fields) w p
             (build_row_flattens fields lat lon Hr Hl Hc Hlat Hlon) eq_refl Hp Hup).
  rewrite params_of_row. unfold INSERT_SQL.
  rewrite bind_flattened. unfold mbind, result_bind.
  by rewrite Htable, Htaken, not_null_flattened, Hquery.
Qed.

Lemma fetch_returns_checked_witness :
  success_is_false example_payload = false
  /\ py_in "current" example_payload = Ok true
  /\ (forall fields, example_payload = JDict fields ->
                     is_Some (dict_lookup fields "current")
                     /\ dict_lookup fields "success" <> Some (JBool false)).
Proof.
  exact (fetch_returns_checked "Jakarta" "secret" "m"
           (quiet_world key_only (always example_payload) 0 (provisioned []))
           (with_trace (visited ["https://api.weatherstack.com/current"]
                          "Jakarta" "secret" "m")
              (quiet_world key_only (always example_payload) 0 (provisioned [])))
           example_payload eq_refl).
Defined.

(** * Further properties *)

(** ** Settings *)

(** A value that is not blank is returned as it is set, surrounding
    whitespace included, whether or not the variable is required: the
    stripped text is only what the check looks at. *)
Theorem get_env_returns_value_unstripped (e : gmap string string) (name : string)
    (default : option string) (required : bool) (s : string) :
  getenv e name default = Some s ->
  blank s = false ->
  _get_env e name default required = Ok s.
Proof.
  intros Hsome Hblank. destruct required.
  - by apply get_env_required_returns.
  - by rewrite get_env_optional, Hsome.
Qed.

Lemma get_env_returns_value_unstripped_witness :
  _get_env {[ "WEATHERSTACK_API_KEY" := " secret " ]} "WEATHERSTACK_API_KEY" None true
  = Ok " secret ".
Proof.
  apply (get_env_returns_value_unstripped
           {[ "WEATHERSTACK_API_KEY" := " secret " ]} "WEATHERSTACK_API_KEY"
           None true " secret ");
    reflexivity.
Defined.

Lemma get_env_setting (e : gmap string string) (name default : string) :
  _get_env e name (Some default) false = Ok (setting e name default).
Proof.
  rewrite get_env_optional. unfold getenv, setting. by destruct (e !! name).
Qed.

Lemma pg_conn_params_cases {rt : Runtime} (e : gmap string string) :
  _pg_conn_params e
  = match int_of_str (setting e "PG_PORT" "5433") with
    | Some n =>
        Ok (ConnParams (setting e "PG_HOST" "localhost") n
              (setting e "PG_DATABASE" "weatherdb")
              (setting e "PG_USER" "weather")
              (setting e "PG_PASSWORD" "weather"))
    | None => Raise (Exn ValueError (int_error (setting e "PG_PORT" "5433")))
    end.
Proof.
  unfold _pg_conn_params. rewrite !get_env_setting.
  unfold mbind, result_bind, py_int.
  by destruct (int_of_str (setting e "PG_PORT" "5433")).
Qed.

(** When the port text is an integer literal, the connection parameters
    are the five settings: each is the variable's value when it is set, an
    empty value included, and the default otherwise. *)
Theorem pg_conn_params_settings {rt : Runtime} (e : gmap string string) (n : Z) :
  int_of_str (setting e "PG_PORT" "5433") = Some n ->
  _pg_conn_params e
  = Ok (ConnParams (setting e "PG_HOST" "localhost") n
          (setting e "PG_DATABASE" "weatherdb")
          (setting e "PG_USER" "weather")
          (setting e "PG_PASSWORD" "weather")).
Proof. intros Hport. by rewrite pg_conn_params_cases, Hport. Qed.

Lemma pg_conn_params_settings_witness :
  _pg_conn_params {[ "PG_HOST" := ""; "PG_PORT" := " 6543 " ]}
  = Ok (ConnParams "" 6543 "weatherdb" "weather" "weather").
Proof.
  exact (pg_conn_params_settings {[ "PG_HOST" := ""; "PG_PORT" := " 6543 " ]} 6543
           eq_refl).
Defined.

(** ** Database steps in every world *)

Section Steps.
Context {rt : Runtime}.

Lemma with_connection_cases (statement : string) (run : world -> result database)
    (w : world) :
  (forall t, run (with_trace t w) = run w) ->
  with_connection statement run w
  = match _pg_conn_params (env w) with
    | Raise e => (Raise e, w)
    | Ok p =>
        if pg_up w then
          match run w with
          | Ok d => (Ok tt, with_trace (trace w ++ pg_session p statement) (with_db d w))
          | Raise e => (Raise e, with_trace (trace w ++ pg_session p statement) w)
          end
        else (Raise (Exn (LibraryError "psycopg2.OperationalError") "connection failed"),
              with_trace (trace w ++ [EvPgConnect p]) w)
    end.
Proof.
  intros Hstable.
  destruct (_pg_conn_params (env w)) as [p | e] eqn:Hp.
  - destruct (pg_up w) eqn:Hup.
    + by apply with_connection_run.
    + by apply with_connection_down.
  - unfold with_connection, connect. unfold mbind, M_bind. by rewrite Hp.
Qed.

(** What a step adds to the trace does not depend on its statement's
    outcome. *)
Lemma with_connection_trace (statement : string) (run : world -> result database)
    (w : world) :
  (forall t, run (with_trace t w) = run w) ->
  trace (with_connection statement run w).2 = trace w ++ step_calls w statement.
Proof.
  intros Hstable. rewrite with_connection_cases by done. unfold step_calls.
  destruct (_pg_conn_params (env w)) as [p | e]; simpl; [|by rewrite app_nil_r].
  destruct (pg_up w); [|done]. by destruct (run w).
Qed.

Lemma with_connection_frame (statement : string) (run : world -> result database)
    (w : world) :
  (forall t, run (with_trace t w) = run w) ->
  let out := with_connection statement run w in
  env out.2 = env w /\ pg_now out.2 = pg_now w /\ pg_up out.2 = pg_up w
  /\ match out.1 with
     | Ok _ => run w = Ok (db out.2)
     | Raise _ => db out.2 = db w
     end.
Proof.
  intros Hstable out. subst out. rewrite with_connection_cases by done.
  destruct (_pg_conn_params (env w)) as [p | e]; [|done].
  destruct (pg_up w) eqn:Hup; [|done].
  destruct (run w) as [d | e] eqn:Hrun; simpl; done.
Qed.

End Steps.

(** ** Schema provisioning in every world *)

Lemma create_table_sql_inv (w : world) (d : database) :
  CREATE_TABLE_SQL w = Ok d ->
  (forall name k, relations (db w) !! name = Some k -> relations d !! name = Some k)
  /\ relations d !! TABLE = Some RelTable
  /\ is_Some (relations d !! INDEX)
  /\ weather_current d
     = match relations (db w) !! TABLE with
       | Some _ => weather_current (db w)
       | None => []
       end.
Proof.
  unfold CREATE_TABLE_SQL, create_table_if_not_exists, create_index_if_not_exists.
  destruct (db w) as [rels rows]. simpl.
  destruct (rels !! TABLE) as [[|on]|] eqn:Ht; simpl.
  - rewrite Ht. destruct (rels !! INDEX) as [k|] eqn:Hi.
    + intros [= <-]. simpl. rewrite Hi. eauto.
    + intros [= <-]. simpl. rewrite lookup_insert_eq.
      rewrite lookup_insert_ne by (intros H; symmetry in H; by apply table_is_not_index).
      split; [|eauto].
      intros name k Hk. rewrite lookup_insert_ne; [done | congruence].
  - by rewrite Ht.
  - rewrite lookup_insert_eq. rewrite lookup_insert_ne by apply table_is_not_index.
    destruct (rels !! INDEX) as [k|] eqn:Hi.
    + intros [= <-]. simpl. rewrite lookup_insert_eq.
      rewrite lookup_insert_ne by apply table_is_not_index. rewrite Hi.
      split; [|eauto].
      intros name k' Hk. rewrite lookup_insert_ne; [done | congruence].
    + intros [= <-]. simpl. rewrite lookup_insert_eq.
      rewrite lookup_insert_ne by (intros H; symmetry in H; by apply table_is_not_index).
      rewrite lookup_insert_eq.
      split; [|eauto].
      intros name k' Hk. rewrite !lookup_insert_ne; [done | congruence | congruence].
Qed.

(** In every world and whatever its outcome, [ensure_table] keeps every
    relation of the catalog as it is and keeps the rows of a relation
    already named [weather_current]; when it returns, the table and a
    relation of the index's name are in the catalog; when it raises, the
    database is as it was.  Its database calls are one connection that is
    closed again, or an attempt that failed, or none. *)
Theorem ensure_table_preserves {rt : Runtime} (w : world) :
  let out := ensure_table w in
  (forall name k, relations (db w) !! name = Some k ->
                  relations (db out.2) !! name = Some k)
  /\ (is_Some (relations (db w) !! TABLE) ->
      weather_current (db out.2) = weather_current (db w))
  /\ match out.1 with
     | Ok _ => relations (db out.2) !! TABLE = Some RelTable
               /\ is_Some (relations (db out.2) !! INDEX)
     | Raise _ => db out.2 = db w
     end
  /\ trace out.2 = trace w ++ step_calls w "CREATE_TABLE_SQL".
Proof.
  intros out.
  assert (Hstable : forall t, CREATE_TABLE_SQL (with_trace t w) = CREATE_TABLE_SQL w)
    by reflexivity.
  destruct (with_connection_frame "CREATE_TABLE_SQL" CREATE_TABLE_SQL w Hstable)
    as (_ & _ & _ & Hout).
  assert (Htrace := with_connection_trace "CREATE_TABLE_SQL" CREATE_TABLE_SQL w Hstable).
  fold ensure_table in Hout, Htrace. fold out in Hout, Htrace.
  destruct (out.1) as [[]|e].
  - destruct (create_table_sql_inv w _ Hout) as (Hkeep & Ht & Hi & Hrows).
    split; [exact Hkeep|]. split; [|done].
    intros [k Hk]. by rewrite Hrows, Hk.
  - rewrite Hout. done.
Qed.

Lemma ensure_table_preserves_witness :
  let w := quiet_world ∅ unreachable 0
             (Database (<[TABLE := RelIndex "users"]> (<["users" := RelTable]> ∅))
                [StoredRow 7 []]) in
  relations (db (ensure_table w).2) !! "users" = Some RelTable
  /\ weather_current (db (ensure_table w).2) = [StoredRow 7 []].
Proof.
  split.
  - apply (proj1 (ensure_table_preserves
                    (quiet_world ∅ unreachable 0
                       (Database (<[TABLE := RelIndex "users"]> (<["users" := RelTable]> ∅))
                          [StoredRow 7 []])))
             "users" RelTable).
    reflexivity.
  - apply (proj1 (proj2 (ensure_table_preserves
                    (quiet_world ∅ unreachable 0
                       (Database (<[TABLE := RelIndex "users"]> (<["users" := RelTable]> ∅))
                          [StoredRow 7 []]))))).
    exists (RelIndex "users"). reflexivity.
Defined.

(** ** Retention in every world *)

Lemma delete_sql_inv (w : world) (d : database) :
  DELETE_SQL RETENTION_DAYS w = Ok d ->
  relations (db w) !! TABLE = Some RelTable
  /\ d = Database (relations (db w))
           (kept_rows (pg_now w - 2 * usec_per_day) (weather_current (db w))).
Proof.
  unfold DELETE_SQL. destruct (relations (db w) !! TABLE) as [[|on]|]; try done.
  by intros [= <-].
Qed.

(** In every world and whatever its outcome, [cleanup_old_rows] leaves
    the catalog as it is and adds or alters no row: the rows it leaves are
    rows that were there, in their order.  When it returns, it has removed
    the rows older than the cutoff and no other; when it raises, the
    database is as it was. *)
Theorem cleanup_only_removes {rt : Runtime} (w : world) :
  let out := cleanup_old_rows w in
  relations (db out.2) = relations (db w)
  /\ weather_current (db out.2) `sublist_of` weather_current (db w)
  /\ match out.1 with
     | Ok _ => weather_current (db out.2)
               = kept_rows (pg_now w - 2 * usec_per_day) (weather_current (db w))
     | Raise _ => db out.2 = db w
     end
  /\ trace out.2 = trace w ++ step_calls w DELETE_TEXT.
Proof.
  intros out.
  assert (Hstable : forall t, DELETE_SQL RETENTION_DAYS (with_trace t w)
                              = DELETE_SQL RETENTION_DAYS w) by reflexivity.
  destruct (with_connection_frame DELETE_TEXT (DELETE_SQL RETENTION_DAYS) w Hstable)
    as (_ & _ & _ & Hout).
  assert (Htrace := with_connection_trace DELETE_TEXT (DELETE_SQL RETENTION_DAYS) w Hstable).
  fold cleanup_old_rows in Hout, Htrace. fold out in Hout, Htrace.
  destruct (out.1) as [[]|e].
  - destruct (delete_sql_inv w _ Hout) as (Ht & Hd). rewrite Hd. simpl.
    split; [done|]. split; [apply sublist_filter | done].
  - by rewrite Hout.
Qed.

(** Pruning composes: pruning at an instant and again at a later one
    leaves the rows that pruning once at the later instant leaves. *)
Lemma kept_rows_twice (c1 c2 : Z) (rows : list stored_row) :
  c1 <= c2 -> kept_rows c2 (kept_rows c1 rows) = kept_rows c2 rows.
Proof.
  intros Hle. unfold kept_rows. rewrite list_filter_filter.
  apply list_filter_iff. intros r. lia.
Qed.

Lemma cleanup_old_rows_run {rt : Runtime} (w : world) (p : conn_params) :
  _pg_conn_params (env w) = Ok p ->
  pg_up w = true ->
  relations (db w) !! TABLE = Some RelTable ->
  cleanup_old_rows w
  = (Ok tt, with_trace (trace w ++ pg_session p DELETE_TEXT)
              (with_db (Database (relations (db w))
                          (kept_rows (pg_now w - 2 * usec_per_day)
                             (weather_current (db w)))) w)).
Proof.
  intros Hp Hup Ht. unfold cleanup_old_rows.
  rewrite (with_connection_run _ _ w p Hp Hup) by reflexivity.
  unfold DELETE_SQL. by rewrite Ht.
Qed.

(** Pruning twice is pruning once at the later instant: on a reachable
    server that has the table, a pruning followed by a second one at a
    later instant leaves the database that the later pruning alone leaves,
    and neither raises. *)
Theorem cleanup_twice {rt : Runtime} (w : world) (p : conn_params) (later : Z) :
  _pg_conn_params (env w) = Ok p ->
  pg_up w = true ->
  relations (db w) !! TABLE = Some RelTable ->
  pg_now w <= later ->
  let once := cleanup_old_rows (at_time later w) in
  let twice := cleanup_old_rows (at_time later (cleanup_old_rows w).2) in
  once.1 = Ok tt /\ twice.1 = Ok tt /\ db twice.2 = db once.2.
Proof.
  intros Hp Hup Ht Hlater once twice. subst once twice.
  rewrite (cleanup_old_rows_run w p Hp Hup Ht).
  rewrite (cleanup_old_rows_run (at_time later w) p Hp Hup Ht).
  match goal with
  | |- context [at_time later (snd ?x)] => set (w1 := snd x)
  end.
  rewrite (cleanup_old_rows_run (at_time later w1) p Hp Hup Ht).
  simpl. split; [done | split; [done|]].
  f_equal. apply kept_rows_twice. lia.
Qed.

Lemma cleanup_twice_witness :
  let day := usec_per_day in
  let rows := [StoredRow (1 * day) []; StoredRow (9 * day) []; StoredRow (8 * day) []] in
  let w := quiet_world ∅ unreachable (10 * day) (provisioned rows) in
  let once := cleanup_old_rows (at_time (10 * day + day / 2) w) in
  let twice := cleanup_old_rows
                 (at_time (10 * day + day / 2) (cleanup_old_rows w).2) in
  once.1 = Ok tt /\ twice.1 = Ok tt /\ db twice.2 = db once.2.
Proof.
  apply (cleanup_twice
           (quiet_world ∅ unreachable (10 * usec_per_day)
              (provisioned [ StoredRow (1 * usec_per_day) [];
                             StoredRow (9 * usec_per_day) [];
                             StoredRow (8 * usec_per_day) [] ]))
           (ConnParams "localhost" 5433 "weatherdb" "weather" "weather")
           (10 * usec_per_day + usec_per_day / 2)).
  - reflexivity.
  - reflexivity.
  - reflexivity.
  - vm_compute. discriminate.
Defined.

(** ** The loader in every world *)

Lemma param_lookup_set (params : list (string * pyobj)) (k : string) (x : pyobj) :
  param_lookup (param_set params k x) k = Some x.
Proof.
  induction params as [|[k' y] rest IH]; simpl.
  - by rewrite String.eqb_refl.
  - destruct (String.eqb k' k) eqn:Hk; simpl; by rewrite Hk.
Qed.

Lemma bind_placeholders_inv (names : list string) (params : list (string * pyobj)) :
  forall cells,
    bind_placeholders names params = Ok cells ->
    map fst cells = names
    /\ forall n, n ∈ names -> param_lookup cells n = param_lookup params n.
Proof.
  induction names as [|n0 rest IH]; intros cells; simpl.
  - intros [= <-]. split; [done|]. intros n Hn. by apply elem_of_nil in Hn.
  - destruct (param_lookup params n0) as [x0|] eqn:Hx0; [|done].
    destruct (bind_placeholders rest params) as [cells'|] eqn:Hrest; [|done].
    simpl. intros [= <-]. destruct (IH cells' eq_refl) as [Hkeys Hvals].
    split; [simpl; by rewrite Hkeys|].
    intros n Hn. simpl. destruct (String.eqb n0 n) eqn:Hn0.
    + apply String.eqb_eq in Hn0. by subst.
    + apply elem_of_cons in Hn as [-> | Hn]; [by rewrite String.eqb_refl in Hn0|].
      by apply Hvals.
Qed.

Lemma insert_sql_inv (params : list (string * pyobj)) (w : world) (d : database) :
  INSERT_SQL params w = Ok d ->
  exists cells,
    bind_placeholders insert_columns params = Ok cells
    /\ relations (db w) !! TABLE = Some RelTable
    /\ forallb (cell_accepted w) cells = true
    /\ forallb cell_not_null_ok cells = true
    /\ d = Database (relations (db w))
             (weather_current (db w) ++ [StoredRow (pg_now w) cells]).
Proof.
  unfold INSERT_SQL.
  destruct (bind_placeholders insert_columns params) as [cells|]; [|done].
  unfold mbind, result_bind.
  destruct (relations (db w) !! TABLE) as [[|on]|]; try done.
  destruct (forallb (cell_accepted w) cells) eqn:Htaken; [|done].
  destruct (forallb cell_not_null_ok cells) eqn:Hnn; [|done].
  simpl. intros [= <-]. by exists cells.
Qed.

Lemma not_null_query_text (cells : list (string * pyobj)) :
  map fst cells = insert_columns ->
  forallb cell_not_null_ok cells = true ->
  param_lookup cells "query_text" <> Some (Plain JNull).
Proof.
  destruct cells as [|[k x] rest]; [done|].
  intros [= -> _]. simpl. intros [Hx _]%andb_prop. intros [= ->]. done.
Qed.

Section LoaderCases.
Context {rt : Runtime}.

Lemma build_row_raw (api_payload : json) (row : list (string * json)) :
  build_row api_payload = Ok row -> dict_lookup row "raw" = Some api_payload.
Proof.
  unfold build_row. unfold mbind, result_bind.
  repeat match goal with
         | |- match ?x with Ok _ => _ | Raise _ => _ end = _ -> _ =>
             destruct x; [|discriminate]
         end.
  by intros [= <-].
Qed.

(** The loader by cases: the row, then the connection, then the INSERT. *)
Lemma load_cases (api_payload : json) (w : world) :
  load_to_postgres api_payload w
  = match build_row api_payload with
    | Raise e => (Raise e, w)
    | Ok row =>
        match _pg_conn_params (env w) with
        | Raise e => (Raise e, w)
        | Ok p =>
            if pg_up w then
              match INSERT_SQL
                      (param_set (map (fun kv => (kv.1, Plain kv.2)) row) "raw"
                         (Json api_payload)) w with
              | Ok d => (Ok tt, with_trace (trace w ++ pg_session p "insert_sql")
                                  (with_db d w))
              | Raise e => (Raise e, with_trace (trace w ++ pg_session p "insert_sql") w)
              end
            else (Raise (Exn (LibraryError "psycopg2.OperationalError")
                           "connection failed"),
                  with_trace (trace w ++ [EvPgConnect p]) w)
        end
    end.
Proof.
  destruct (build_row api_payload) as [row | e] eqn:Hrow.
  - destruct (_pg_conn_params (env w)) as [p | e] eqn:Hp.
    + destruct (pg_up w) eqn:Hup.
      * by rewrite (load_run api_payload row api_payload w p Hrow
                      (build_row_raw _ _ Hrow) Hp Hup).
      * unfold load_to_postgres, connect, lift. unfold mbind, M_bind.
        by rewrite Hrow, Hp, Hup.
    + unfold load_to_postgres, connect, lift. unfold mbind, M_bind.
      by rewrite Hrow, Hp.
  - by apply load_row_error.
Qed.

End LoaderCases.

(** In every world and for every payload, [load_to_postgres] leaves the
    catalog and the rows that are there as they are.  When it returns, it
    has appended exactly one row, stamped with the server's [now()], that
    has the eighteen columns of the INSERT in their order, the payload in
    [raw] and a [query_text] that is not null, and the table was there;
    when it raises, the database is as it was. *)
Theorem load_appends_one_row_or_nothing {rt : Runtime} (api_payload : json) (w : world) :
  let out := load_to_postgres api_payload w in
  relations (db out.2) = relations (db w)
  /\ match out.1 with
     | Ok _ =>
         relations (db w) !! TABLE = Some RelTable
         /\ exists cells,
              weather_current (db out.2)
              = weather_current (db w) ++ [StoredRow (pg_now w) cells]
              /\ map fst cells = insert_columns
              /\ param_lookup cells "raw" = Some (Json api_payload)
              /\ param_lookup cells "query_text" <> Some (Plain JNull)
     | Raise _ => weather_current (db out.2) = weather_current (db w)
     end.
Proof.
  intros out. subst out. rewrite load_cases.
  destruct (build_row api_payload) as [row | e]; [|done].
  destruct (_pg_conn_params (env w)) as [p | e]; [|done].
  destruct (pg_up w); [|done].
  destruct (INSERT_SQL _ w) as [d | e] eqn:Hins; [|done].
  destruct (insert_sql_inv _ _ _ Hins) as (cells & Hbind & Ht & _ & Hnn & ->).
  destruct (bind_placeholders_inv _ _ _ Hbind) as [Hkeys Hvals].
  simpl. split; [done|]. split; [done|]. exists cells.
  split; [done|]. split; [done|]. split.
  - rewrite Hvals by (unfold insert_columns; set_solver). apply param_lookup_set.
  - by apply not_null_query_text.
Qed.

(** ** When a database step cannot run *)

(** A port text that [int] does not take stops every database step with
    the [ValueError] of [int], before the server is contacted: the world is
    as it was.  When the [repr] of the text has at most 200 characters,
    the message is the invalid-literal one with the text quoted in full.
    The loader gets that far only with a payload whose row it could
    build. *)
Theorem bad_port_stops_every_step {rt : Runtime} (w : world) (api_payload : json) :
  int_of_str (setting (env w) "PG_PORT" "5433") = None ->
  let port := setting (env w) "PG_PORT" "5433" in
  let e := Exn ValueError (int_error port) in
  ((String.length (repr_str port) <= 200)%nat ->
   exn_text e = "invalid literal for int() with base 10: " +:+ repr_str port)
  /\ ensure_table w = (Raise e, w)
  /\ cleanup_old_rows w = (Raise e, w)
  /\ (is_ok (build_row api_payload) = true ->
      load_to_postgres api_payload w = (Raise e, w)).
Proof.
  intros Hport port e.
  assert (Hp : _pg_conn_params (env w) = Raise e)
    by (by rewrite pg_conn_params_cases, Hport).
  split; [|split; [|split]].
  - intros Hshort. simpl. unfold int_error.
    by destruct (Nat.leb_spec (String.length (repr_str port)) 200); [|lia].
  - unfold ensure_table. rewrite with_connection_cases by reflexivity. by rewrite Hp.
  - unfold cleanup_old_rows. rewrite with_connection_cases by reflexivity. by rewrite Hp.
  - intros Hrow. rewrite load_cases.
    destruct (build_row api_payload); [by rewrite Hp | done].
Qed.

Lemma bad_port_stops_every_step_witness :
  let w := quiet_world {[ "PG_PORT" := "54e3" ]} unreachable 0 (provisioned []) in
  let e := Exn ValueError "invalid literal for int() with base 10: '54e3'" in
  ensure_table w = (Raise e, w)
  /\ cleanup_old_rows w = (Raise e, w)
  /\ (is_ok (build_row example_payload) = true ->
      load_to_postgres example_payload w = (Raise e, w)).
Proof.
  exact (proj2 (bad_port_stops_every_step
                  (quiet_world {[ "PG_PORT" := "54e3" ]} unreachable 0 (provisioned []))
                  example_payload eq_refl)).
Defined.

(** When the server cannot be reached, every database step raises the
    connection error after the one attempt: no statement is sent and the
    database is as it was. *)
Theorem server_down_stops_every_step {rt : Runtime} (w : world) (p : conn_params)
    (api_payload : json) :
  _pg_conn_params (env w) = Ok p ->
  pg_up w = false ->
  let e := Exn (LibraryError "psycopg2.OperationalError") "connection failed" in
  let w' := with_trace (trace w ++ [EvPgConnect p]) w in
  ensure_table w = (Raise e, w')
  /\ cleanup_old_rows w = (Raise e, w')
  /\ (is_ok (build_row api_payload) = true ->
      load_to_postgres api_payload w = (Raise e, w')).
Proof.
  intros Hp Hup e w'. split; [|split].
  - by apply with_connection_down.
  - by apply with_connection_down.
  - intros Hrow. rewrite load_cases.
    destruct (build_row api_payload); [by rewrite Hp, Hup | done].
Qed.

Lemma server_down_stops_every_step_witness :
  let w := World ∅ unreachable false (fun _ _ => true) 0 (provisioned []) [] in
  let p := ConnParams "localhost" 5433 "weatherdb" "weather" "weather" in
  let e := Exn (LibraryError "psycopg2.OperationalError") "connection failed" in
  let w' := with_trace (trace w ++ [EvPgConnect p]) w in
  ensure_table w = (Raise e, w')
  /\ cleanup_old_rows w = (Raise e, w')
  /\ (is_ok (build_row example_payload) = true ->
      load_to_postgres example_payload w = (Raise e, w')).
Proof.
  exact (server_down_stops_every_step
           (World ∅ unreachable false (fun _ _ => true) 0 (provisioned []) [])
           (ConnParams "localhost" 5433 "weatherdb" "weather" "weather")
           example_payload eq_refl eq_refl).
Defined.

(** Before [ensure_table] has run, when no relation is named
    [weather_current], the pruner and the loader raise [UndefinedTable]
    after one connection that is closed again, and the database is as it
    was.  The loader gets that far with a payload whose row it could build
    and whose values psycopg2 can write into the statement; a value it
    cannot adapt is refused before the statement is sent. *)
Theorem steps_need_the_table {rt : Runtime} (w : world) (p : conn_params)
    (api_payload : json) (row : list (string * json)) :
  _pg_conn_params (env w) = Ok p ->
  pg_up w = true ->
  relations (db w) !! TABLE = None ->
  let e := pg_error "UndefinedTable" "relation weather_current does not exist" in
  cleanup_old_rows w = (Raise e, with_trace (trace w ++ pg_session p DELETE_TEXT) w)
  /\ (build_row api_payload = Ok row ->
      forallb (fun kv => adaptable kv.2)
        (param_set (map (fun kv => (kv.1, Plain kv.2)) row) "raw" (Json api_payload))
      = true ->
      load_to_postgres api_payload w
      = (Raise e, with_trace (trace w ++ pg_session p "insert_sql") w)).
Proof.
  intros Hp Hup Ht e. split.
  - unfold cleanup_old_rows. rewrite with_connection_cases by reflexivity.
    rewrite Hp, Hup. unfold DELETE_SQL. by rewrite Ht.
  - intros Hbuild _. rewrite load_cases. rewrite Hbuild.
    rewrite Hp, Hup. unfold INSERT_SQL.
    destruct (bind_placeholders insert_columns _) as [cells|] eqn:Hbind.
    + unfold mbind, result_bind. by rewrite Ht.
    + exfalso. revert Hbuild Hbind. clear. unfold build_row. unfold mbind, result_bind.
      repeat match goal with
             | |- match ?x with Ok _ => _ | Raise _ => _ end = _ -> _ =>
                 destruct x; [|discriminate]
             end.
      by intros [= <-].
Qed.

Lemma steps_need_the_table_witness :
  let w := quiet_world ∅ unreachable 0 (Database ∅ []) in
  let p := ConnParams "localhost" 5433 "weatherdb" "weather" "weather" in
  let e := pg_error "UndefinedTable" "relation weather_current does not exist" in
  cleanup_old_rows w = (Raise e, with_trace (trace w ++ pg_session p DELETE_TEXT) w)
  /\ load_to_postgres example_payload w
     = (Raise e, with_trace (trace w ++ pg_session p "insert_sql") w).
Proof.
  split.
  - exact (proj1 (steps_need_the_table
                    (quiet_world ∅ unreachable 0 (Database ∅ []))
                    (ConnParams "localhost" 5433 "weatherdb" "weather" "weather")
                    example_payload [] eq_refl eq_refl eq_refl)).
  - exact (proj2 (steps_need_the_table
                    (quiet_world ∅ unreachable 0 (Database ∅ []))
                    (ConnParams "localhost" 5433 "weatherdb" "weather" "weather")
                    example_payload
                    (match build_row example_payload with Ok row => row | Raise _ => [] end)
                    eq_refl eq_refl eq_refl)
             eq_refl eq_refl).
Defined.

(** ** Payloads the loader cannot read *)

Section Unreadable.
Context {rt : Runtime}.

Lemma section_of_mapping (fields : list (string * json)) (sec : string) :
  exists r, section (JDict fields) sec = Ok r.
Proof. unfold section. simpl. eauto. Qed.

Lemma section_get_ok (fields : list (string * json)) (sec key : string) (r v : json) :
  section (JDict fields) sec = Ok r -> py_get r key = Ok v -> section_ok fields sec = true.
Proof.
  unfold section, section_ok. simpl. intros [= <-].
  destruct (dict_lookup fields sec) as [x|]; [|done].
  unfold py_or. destruct (truthy x) eqn:Hx; [|by destruct x].
  by destruct x.
Qed.

(** A row is built only from a payload whose three sections can be read. *)
Lemma build_row_sections_ok (fields : list (string * json)) (row : list (string * json)) :
  build_row (JDict fields) = Ok row ->
  forall sec, sec ∈ sections -> section_ok fields sec = true.
Proof.
  unfold build_row. unfold mbind, result_bind.
  destruct (section (JDict fields) "request") as [rq|] eqn:Hrq; [|done].
  destruct (section (JDict fields) "location") as [lo|] eqn:Hlo; [|done].
  destruct (section (JDict fields) "current") as [cu|] eqn:Hcu; [|done].
  destruct (py_get rq "query") as [q|] eqn:Hq; [|done].
  destruct (py_get lo "name") as [n|] eqn:Hn; [|done].
  destruct (py_get lo "region"); [|done].
  destruct (py_get lo "country"); [|done].
  destruct (coerce_float lo "lat"); [|done].
  destruct (coerce_float lo "lon"); [|done].
  destruct (py_get cu "observation_time") as [o|] eqn:Ho; [|done].
  intros _ sec Hsec. unfold sections in Hsec. each_column Hsec.
  - by eapply section_get_ok.
  - by eapply section_get_ok.
  - by eapply section_get_ok.
Qed.

End Unreadable.

(** A payload that is no mapping is refused at the first [.get], with
    the [AttributeError] that names its type, before any connection. *)
Theorem load_rejects_non_mapping {rt : Runtime} (api_payload : json) (w : world) :
  is_mapping api_payload = false ->
  load_to_postgres api_payload w
  = (Raise (Exn AttributeError
              ("'" +:+ type_name api_payload +:+ "' object has no attribute 'get'")), w).
Proof.
  intros Hno. apply load_row_error. by destruct api_payload.
Qed.

Lemma load_rejects_non_mapping_witness :
  load_to_postgres (JStr "no current data")
    (quiet_world key_only unreachable 0 (provisioned []))
  = (Raise (Exn AttributeError "'str' object has no attribute 'get'"),
     quiet_world key_only unreachable 0 (provisioned [])).
Proof.
  exact (load_rejects_non_mapping (JStr "no current data")
           (quiet_world key_only unreachable 0 (provisioned [])) eq_refl).
Defined.

(** A section that is there but is neither falsy nor a mapping (a
    non-empty list or string, a number that is not zero, [True]) makes the
    loader raise before any connection; for the [request] section the
    error is the [AttributeError] that names its type. *)
Theorem load_rejects_bad_section {rt : Runtime} (fields : list (string * json))
    (sec : string) (w : world) :
  sec ∈ sections ->
  section_ok fields sec = false ->
  is_ok (load_to_postgres (JDict fields) w).1 = false
  /\ (load_to_postgres (JDict fields) w).2 = w
  /\ (sec = "request" ->
      forall x, dict_lookup fields "request" = Some x ->
                load_to_postgres (JDict fields) w = (Raise (no_get x), w)).
Proof.
  intros Hsec Hbad.
  destruct (build_row (JDict fields)) as [row | e] eqn:Hrow.
  { by rewrite (build_row_sections_ok fields row Hrow sec Hsec) in Hbad. }
  rewrite (load_row_error _ _ _ Hrow). split; [done | split; [done|]].
  intros -> x Hx. f_equal. f_equal.
  revert Hrow Hbad. unfold build_row, section, section_ok. simpl. rewrite Hx.
  unfold mbind, result_bind, py_or.
  destruct x as [|[]|n|f|s|items|inner]; simpl; try done; try (by intros [= <-]).
  - destruct (n =? 0)%Z; simpl; [done | by intros [= <-]].
  - destruct (PrimFloat.eqb f 0); simpl; [done | by intros [= <-]].
  - destruct (String.eqb s ""); simpl; [done | by intros [= <-]].
  - destruct items; simpl; [done | by intros [= <-]].
Qed.

Lemma load_rejects_bad_section_witness :
  let fields := [("request", JList [JStr "Jakarta"]); ("current", JDict [])] in
  let w := quiet_world key_only unreachable 0 (provisioned []) in
  load_to_postgres (JDict fields) w
  = (Raise (Exn AttributeError "'list' object has no attribute 'get'"), w).
Proof.
  exact (proj2 (proj2 (load_rejects_bad_section
                         [("request", JList [JStr "Jakarta"]); ("current", JDict [])]
                         "request"
                         (quiet_world key_only unreachable 0 (provisioned []))
                         ltac:(unfold sections; set_solver) eq_refl))
           eq_refl (JList [JStr "Jakarta"]) eq_refl).
Defined.

(** A section that is there but falsy ([False], zero, the empty string,
    list or mapping) is read like a missing one: as the empty mapping, so
    that each of its sub-fields is null. *)
Theorem falsy_section_is_empty {rt : Runtime} (fields : list (string * json))
    (sec : string) (x : json) :
  dict_lookup fields sec = Some x ->
  truthy x = false ->
  section (JDict fields) sec = Ok (JDict [])
  /\ section_ok fields sec = true
  /\ forall key, field fields sec key = JNull.
Proof.
  intros Hx Hfalsy. unfold section, section_ok, field, section_fields, py_or. simpl.
  rewrite Hx, Hfalsy. split; [done|].
  destruct x as [| | | | | |inner]; try done.
  by destruct inner.
Qed.

Lemma falsy_section_is_empty_witness :
  section (JDict [("location", JBool false)]) "location" = Ok (JDict [])
  /\ section_ok [("location", JBool false)] "location" = true
  /\ forall key, field [("location", JBool false)] "location" key = JNull.
Proof.
  exact (falsy_section_is_empty [("location", JBool false)] "location" (JBool false)
           eq_refl eq_refl).
Defined.

(** When the request and location sections can be read and [float]
    refuses the latitude, or takes the latitude and refuses the longitude,
    the loader raises what [float] raised, before any connection. *)
Theorem load_rejects_uncoercible_coordinate {rt : Runtime}
    (fields : list (string * json)) (e : exn) (w : world) :
  section_ok fields "request" = true ->
  section_ok fields "location" = true ->
  to_double (field fields "location" "lat") = Raise e
  \/ (is_ok (to_double (field fields "location" "lat")) = true
      /\ to_double (field fields "location" "lon") = Raise e) ->
  load_to_postgres (JDict fields) w = (Raise e, w).
Proof.
  intros Hr Hl Hbad. apply load_row_error. unfold build_row.
  rewrite (section_read _ _ Hr), (section_read _ _ Hl).
  destruct (section_of_mapping fields "current") as [cu ->].
  unfold mbind, result_bind. rewrite !py_get_field, !coerce_float_field.
  destruct Hbad as [-> | [Hlat ->]]; [done|].
  by destruct (to_double (field fields "location" "lat")).
Qed.

Lemma load_rejects_uncoercible_coordinate_witness :
  let fields := [ ("request", JDict [("query", JStr "Jakarta")]);
                  ("location", JDict [("lat", JStr "-6.21"); ("lon", JList [])]) ] in
  let w := quiet_world key_only unreachable 0 (provisioned []) in
  load_to_postgres (JDict fields) w
  = (Raise (Exn TypeError
              "float() argument must be a string or a real number, not 'list'"), w).
Proof.
  exact (load_rejects_uncoercible_coordinate
           [ ("request", JDict [("query", JStr "Jakarta")]);
             ("location", JDict [("lat", JStr "-6.21"); ("lon", JList [])]) ]
           (Exn TypeError "float() argument must be a string or a real number, not 'list'")
           (quiet_world key_only unreachable 0 (provisioned []))
           eq_refl eq_refl (or_intror (conj eq_refl eq_refl))).
Defined.

(** ** The fetcher in every world *)

Lemma append_empty (s : string) : s +:+ "" = s.
Proof.
  induction s as [|c s IH]; [reflexivity|].
  change (String c (s +:+ "") = String c s). by f_equal.
Qed.

Lemma occurs_in_self (s : string) : occurs_in s s.
Proof. exists "", "". by rewrite append_empty. Qed.

Lemma fetch_outcome {rt : Runtime} (query api_key units : string) (w : world) :
  fetch_weather_from_api query api_key units w
  = match endpoint_result w HTTPS_URL query api_key units with
    | Ok data => (Ok data, with_trace (trace w ++ visited [HTTPS_URL] query api_key units) w)
    | Raise _ =>
        match endpoint_result w HTTP_URL query api_key units with
        | Ok data =>
            (Ok data, with_trace (trace w ++ visited base_urls query api_key units) w)
        | Raise e =>
            (Raise (aggregated (Some e)),
             with_trace (trace w ++ visited base_urls query api_key units) w)
        end
    end.
Proof.
  unfold fetch_weather_from_api, base_urls, HTTPS_URL, HTTP_URL.
  destruct (endpoint_result w "https://api.weatherstack.com/current" _ _ _)
    as [d1 | e1] eqn:H1.
  - by apply fetch_loop_returned.
  - erewrite fetch_loop_failed by exact H1.
    destruct (endpoint_result w "http://api.weatherstack.com/current" _ _ _)
      as [d2 | e2] eqn:H2.
    + erewrite fetch_loop_returned by (rewrite endpoint_result_with_trace; exact H2).
      f_equal. unfold with_trace, visited. simpl. by rewrite <- app_assoc.
    + erewrite fetch_loop_failed by (rewrite endpoint_result_with_trace; exact H2).
      simpl. unfold raise. f_equal. unfold with_trace, visited. simpl.
      by rewrite <- !app_assoc.
Qed.

Lemma mapping_passes {rt : Runtime} (fields : list (string * json)) :
  is_Some (dict_lookup fields "current") ->
  dict_lookup fields "success" <> Some (JBool false) ->
  check_payload (JDict fields) = Ok (JDict fields).
Proof.
  intros [c Hc] Hflag. apply check_payload_passes.
  - unfold success_is_false.
    destruct (dict_lookup fields "success") as [[|[]| | | | |]|]; done.
  - unfold py_in. by rewrite Hc.
Qed.

(** A mapping that has the key [current] and whose [success] entry is
    anything but [False] (it may be absent, null, zero or a string) is a
    valid payload: when the https endpoint answers with it, it is returned
    after that one GET and the http endpoint is not called. *)
Theorem fetch_first_endpoint_suffices {rt : Runtime} (query api_key units : string)
    (w : world) (fields : list (string * json)) :
  http w HTTPS_URL (request_params query api_key units) = Replied (Ok (JDict fields)) ->
  is_Some (dict_lookup fields "current") ->
  dict_lookup fields "success" <> Some (JBool false) ->
  fetch_weather_from_api query api_key units w
  = (Ok (JDict fields),
     with_trace (trace w ++ [EvHttpGet HTTPS_URL (request_params query api_key units) 20])
       w).
Proof.
  intros Hhttp Hcur Hflag. rewrite fetch_outcome.
  unfold endpoint_result at 1. rewrite Hhttp. simpl.
  by rewrite (mapping_passes fields Hcur Hflag).
Qed.

Lemma fetch_first_endpoint_suffices_witness :
  let fields := [("success", JInt 0); ("current", JDict [("temperature", JInt 29)])] in
  let w := quiet_world key_only (always (JDict fields)) 0 (provisioned []) in
  fetch_weather_from_api "Jakarta" "secret" "m" w
  = (Ok (JDict fields),
     with_trace (trace w ++ [EvHttpGet HTTPS_URL
                               (request_params "Jakarta" "secret" "m") 20]) w).
Proof.
  exact (fetch_first_endpoint_suffices "Jakarta" "secret" "m"
           (quiet_world key_only
              (always (JDict [("success", JInt 0);
                              ("current", JDict [("temperature", JInt 29)])]))
              0 (provisioned []))
           [("success", JInt 0); ("current", JDict [("temperature", JInt 29)])]
           eq_refl (ex_intro _ (JDict [("temperature", JInt 29)]) eq_refl)
           ltac:(discriminate)).
Defined.

(** In every world and whatever its outcome, the fetcher touches the
    network only: the environment, the clock and the database are as they
    were.  It calls the https endpoint once.  When that endpoint yields a
    valid payload, the payload is returned and the http endpoint is not
    called.  Only when it fails is the http endpoint called, once, and
    then the fetcher returns what the http endpoint yields or, when that
    fails as well, raises a [RuntimeError]. *)
Theorem fetch_touches_only_network {rt : Runtime} (query api_key units : string)
    (w : world) :
  let out := fetch_weather_from_api query api_key units w in
  env out.2 = env w /\ db out.2 = db w /\ pg_now out.2 = pg_now w
  /\ match endpoint_result w HTTPS_URL query api_key units with
     | Ok data =>
         out.1 = Ok data
         /\ trace out.2 = trace w ++ visited [HTTPS_URL] query api_key units
     | Raise _ =>
         trace out.2 = trace w ++ visited [HTTPS_URL; HTTP_URL] query api_key units
         /\ match out.1 with
            | Ok data => endpoint_result w HTTP_URL query api_key units = Ok data
            | Raise e =>
                exn_class e = RuntimeError
                /\ is_ok (endpoint_result w HTTP_URL query api_key units) = false
            end
     end.
Proof.
  intros out. subst out. rewrite fetch_outcome.
  destruct (endpoint_result w HTTPS_URL query api_key units); simpl.
  - by repeat split.
  - destruct (endpoint_result w HTTP_URL query api_key units); simpl; by repeat split.
Qed.

(** When every endpoint answers with a mapping that has no [current] key
    and whose [success] entry is not [False], the fetcher raises, and the
    text of its error quotes the shape error with the payload as [str]
    prints it. *)
Theorem fetch_rejects_missing_current {rt : Runtime} (query api_key units : string)
    (w : world) (fields : list (string * json)) :
  (forall url, url ∈ base_urls ->
               http w url (request_params query api_key units)
               = Replied (Ok (JDict fields))) ->
  dict_lookup fields "current" = None ->
  dict_lookup fields "success" <> Some (JBool false) ->
  exists e,
    fetch_weather_from_api query api_key units w
    = (Raise e, with_trace (trace w ++ visited base_urls query api_key units) w)
    /\ occurs_in ("Unexpected API response shape: " +:+ py_str (JDict fields))
         (exn_text e).
Proof.
  intros Hhttp Hcur Hflag.
  assert (Hcheck : check_payload (JDict fields)
                   = Raise (Exn RuntimeError
                              ("Unexpected API response shape: "
                               +:+ py_str (JDict fields)))).
  { unfold check_payload, success_is_false, py_in. rewrite Hcur.
    destruct (dict_lookup fields "success") as [[|[]| | | | |]|]; done. }
  assert (Hres : forall url, url ∈ base_urls ->
                   endpoint_result w url query api_key units
                   = Raise (Exn RuntimeError
                              ("Unexpected API response shape: "
                               +:+ py_str (JDict fields)))).
  { intros url Hin. unfold endpoint_result. by rewrite (Hhttp url Hin). }
  rewrite fetch_outcome.
  rewrite (Hres HTTPS_URL) by (unfold base_urls, HTTPS_URL; set_solver).
  rewrite (Hres HTTP_URL) by (unfold base_urls, HTTP_URL; set_solver).
  eexists. split; [reflexivity|].
  apply (occurs_in_prefixed "Failed calling Weatherstack API (https/http). Last error: ").
  apply occurs_in_self.
Qed.

Lemma fetch_rejects_missing_current_witness :
  let fields := [("request", JDict [("query", JStr "Jakarta")])] in
  let w := quiet_world key_only (always (JDict fields)) 0 (provisioned []) in
  exists e,
    fetch_weather_from_api "Jakarta" "secret" "m" w
    = (Raise e, with_trace (trace w ++ visited base_urls "Jakarta" "secret" "m") w)
    /\ occurs_in "Unexpected API response shape: {'request': {'query': 'Jakarta'}}"
         (exn_text e).
Proof.
  exact (fetch_rejects_missing_current "Jakarta" "secret" "m"
           (quiet_world key_only
              (always (JDict [("request", JDict [("query", JStr "Jakarta")])]))
              0 (provisioned []))
           [("request", JDict [("query", JStr "Jakarta")])]
           (fun _ _ => eq_refl) eq_refl ltac:(discriminate)).
Defined.

(** ** The task that fetches and loads, in every world *)

Section Task.
Context {rt : Runtime}.

(** With a credential that is not blank, the task is the fetch with the
    credential as it is set and the query and units settings, followed by
    the load of what the fetch returned. *)
Lemma extract_and_load_run (w : world) (key : string) :
  env w !! "WEATHERSTACK_API_KEY" = Some key ->
  blank key = false ->
  extract_and_load w
  = (fetch_weather_from_api (setting (env w) "WEATHERSTACK_QUERY" "Jakarta") key
       (setting (env w) "WEATHERSTACK_UNITS" "m")
     ≫= load_to_postgres) w.
Proof.
  intros Hkey Hblank. unfold extract_and_load.
  assert (Hk : get_env "WEATHERSTACK_API_KEY" None true w = (Ok key, w)).
  { unfold get_env. f_equal. apply get_env_required_returns; [|done].
    unfold getenv. by rewrite Hkey. }
  rewrite (bind_ok _ _ w w key Hk).
  assert (Hq : get_env "WEATHERSTACK_QUERY" (Some "Jakarta") false w
               = (Ok (setting (env w) "WEATHERSTACK_QUERY" "Jakarta"), w)).
  { unfold get_env. f_equal. apply get_env_setting. }
  rewrite (bind_ok _ _ w w _ Hq).
  assert (Hu : get_env "WEATHERSTACK_UNITS" (Some "m") false w
               = (Ok (setting (env w) "WEATHERSTACK_UNITS" "m"), w)).
  { unfold get_env. f_equal. apply get_env_setting. }
  by rewrite (bind_ok _ _ w w _ Hu).
Qed.

(** The fetch followed by the load, when the https endpoint answers with a
    valid mapping that the loader can read and the server takes. *)
Lemma fetch_then_load (w : world) (query key units : string) (p : conn_params)
    (fields : list (string * json)) (lat lon : json) :
  http w HTTPS_URL (request_params query key units) = Replied (Ok (JDict fields)) ->
  is_Some (dict_lookup fields "current") ->
  dict_lookup fields "success" <> Some (JBool false) ->
  section_ok fields "request" = true ->
  section_ok fields "location" = true ->
  section_ok fields "current" = true ->
  to_double (field fields "location" "lat") = Ok lat ->
  to_double (field fields "location" "lon") = Ok lon ->
  field fields "request" "query" <> JNull ->
  _pg_conn_params (env w) = Ok p ->
  pg_up w = true ->
  relations (db w) !! TABLE = Some RelTable ->
  forallb (cell_accepted w) (flattened fields lat lon) = true ->
  (fetch_weather_from_api query key units ≫= load_to_postgres) w
  = (Ok tt,
     with_trace (trace w ++ EvHttpGet HTTPS_URL (request_params query key units) 20
                            :: pg_session p "insert_sql")
       (with_db (Database (relations (db w))
                   (weather_current (db w)
                    ++ [StoredRow (pg_now w) (flattened fields lat lon)])) w)).
Proof.
  intros Hhttp Hcur Hflag Hr Hl Hc Hlat Hlon Hq Hp Hup Ht Htaken.
  assert (Hfetch : fetch_weather_from_api query key units w
                   = (Ok (JDict fields),
                      with_trace (trace w ++ visited [HTTPS_URL] query key units) w)).
  { rewrite fetch_outcome. unfold endpoint_result at 1. rewrite Hhttp. simpl.
    by rewrite (mapping_passes fields Hcur Hflag). }
  rewrite (bind_ok _ _ _ _ _ Hfetch).
  set (w1 := with_trace (trace w ++ visited [HTTPS_URL] query key units) w).
  rewrite (load_run (JDict fields) _ (JDict fields) w1 p
             (build_row_flattens fields lat lon Hr Hl Hc Hlat Hlon) eq_refl Hp Hup).
  rewrite params_of_row. unfold INSERT_SQL.
  rewrite bind_flattened. unfold mbind, result_bind.
  change (relations (db w1)) with (relations (db w)). rewrite Ht.
  change (forallb (cell_accepted w1)) with (forallb (cell_accepted w)). rewrite Htaken.
  rewrite not_null_flattened.
  destruct (field fields "request" "query"); try done; simpl; f_equal;
    unfold w1, with_trace, with_db, visited; simpl; by rewrite <- app_assoc.
Qed.

End Task.

(** When the credential is set and every endpoint fails, the task raises
    the fetcher's error after the two GETs, which carry the credential as
    it is set and the query and units settings; it opens no connection,
    and the database is as it was. *)
Theorem extract_and_load_stops_at_fetch {rt : Runtime} (w : world) (key : string) :
  env w !! "WEATHERSTACK_API_KEY" = Some key ->
  blank key = false ->
  let query := setting (env w) "WEATHERSTACK_QUERY" "Jakarta" in
  let units := setting (env w) "WEATHERSTACK_UNITS" "m" in
  (forall url, url ∈ base_urls ->
               is_ok (endpoint_result w url query key units) = false) ->
  exists e,
    extract_and_load w
    = (Raise e, with_trace (trace w ++ visited base_urls query key units) w)
    /\ exn_class e = RuntimeError.
Proof.
  intros Hkey Hblank query units Hfail.
  rewrite (extract_and_load_run w key Hkey Hblank). fold query units.
  assert (Hs := Hfail HTTPS_URL ltac:(unfold base_urls, HTTPS_URL; set_solver)).
  assert (Hp := Hfail HTTP_URL ltac:(unfold base_urls, HTTP_URL; set_solver)).
  destruct (endpoint_result w HTTPS_URL query key units) as [|e1] eqn:H1; [done|].
  destruct (endpoint_result w HTTP_URL query key units) as [|e2] eqn:H2; [done|].
  exists (aggregated (Some e2)). split; [|done].
  apply bind_raise. by rewrite fetch_outcome, H1, H2.
Qed.

Lemma extract_and_load_stops_at_fetch_witness :
  let w := quiet_world {[ "WEATHERSTACK_API_KEY" := "secret";
                          "WEATHERSTACK_QUERY" := "" ]}
             unreachable 0 (provisioned []) in
  exists e,
    extract_and_load w
    = (Raise e, with_trace (trace w ++ visited base_urls "" "secret" "m") w)
    /\ exn_class e = RuntimeError.
Proof.
  exact (extract_and_load_stops_at_fetch
           (quiet_world {[ "WEATHERSTACK_API_KEY" := "secret";
                           "WEATHERSTACK_QUERY" := "" ]}
              unreachable 0 (provisioned []))
           "secret" eq_refl eq_refl (fun _ _ => eq_refl)).
Defined.

(** End to end: with the credential set, a valid mapping from the https
    endpoint that the loader can read and the server takes, on a reachable
    server that has the table, the task makes one GET and one connection
    and appends the one row that holds the payload's fields and the
    payload. *)
Theorem extract_and_load_stores_payload {rt : Runtime} (w : world) (key : string)
    (p : conn_params) (fields : list (string * json)) (lat lon : json) :
  env w !! "WEATHERSTACK_API_KEY" = Some key ->
  blank key = false ->
  let query := setting (env w) "WEATHERSTACK_QUERY" "Jakarta" in
  let units := setting (env w) "WEATHERSTACK_UNITS" "m" in
  http w HTTPS_URL (request_params query key units) = Replied (Ok (JDict fields)) ->
  is_Some (dict_lookup fields "current") ->
  dict_lookup fields "success" <> Some (JBool false) ->
  section_ok fields "request" = true ->
  section_ok fields "location" = true ->
  section_ok fields "current" = true ->
  to_double (field fields "location" "lat") = Ok lat ->
  to_double (field fields "location" "lon") = Ok lon ->
  field fields "request" "query" <> JNull ->
  _pg_conn_params (env w) = Ok p ->
  pg_up w = true ->
  relations (db w) !! TABLE = Some RelTable ->
  forallb (cell_accepted w) (flattened fields lat lon) = true ->
  extract_and_load w
  = (Ok tt,
     with_trace (trace w ++ EvHttpGet HTTPS_URL (request_params query key units) 20
                            :: pg_session p "insert_sql")
       (with_db (Database (relations (db w))
                   (weather_current (db w)
                    ++ [StoredRow (pg_now w) (flattened fields lat lon)])) w)).
Proof.
  intros Hkey Hblank query units Hhttp Hcur Hflag Hr Hl Hc Hlat Hlon Hq Hp Hup Ht Htaken.
  rewrite (extract_and_load_run w key Hkey Hblank). fold query units.
  by apply fetch_then_load.
Qed.

Lemma extract_and_load_stores_payload_witness :
  let w := quiet_world key_only (always example_payload) 1000 (provisioned []) in
  let fields :=
    [ ("request", JDict [("query", JStr "Jakarta")]);
      ("location", JDict [("name", JStr "Jakarta"); ("lat", JStr "-6.21");
                          ("lon", JStr "106.85")]);
      ("current", JDict [("temperature", JInt 29); ("humidity", JInt 70)]) ] in
  let p := ConnParams "localhost" 5433 "weatherdb" "weather" "weather" in
  extract_and_load w
  = (Ok tt,
     with_trace
       (trace w ++ EvHttpGet HTTPS_URL (request_params "Jakarta" "secret" "m") 20
                :: pg_session p "insert_sql")
       (with_db (Database (relations (db w))
                   (weather_current (db w)
                    ++ [StoredRow 1000
                          (flattened fields (JFloat (-6.21)%float)
                             (JFloat 106.85%float))])) w)).
Proof.
  exact (extract_and_load_stores_payload
           (quiet_world key_only (always example_payload) 1000 (provisioned []))
           "secret"
           (ConnParams "localhost" 5433 "weatherdb" "weather" "weather")
           [ ("request", JDict [("query", JStr "Jakarta")]);
             ("location", JDict [("name", JStr "Jakarta"); ("lat", JStr "-6.21");
                                 ("lon", JStr "106.85")]);
             ("current", JDict [("temperature", JInt 29); ("humidity", JInt 70)]) ]
           (JFloat (-6.21)%float) (JFloat 106.85%float)
           eq_refl eq_refl eq_refl
           (ex_intro _ (JDict [("temperature", JInt 29); ("humidity", JInt 70)]) eq_refl)
           ltac:(discriminate)
           eq_refl eq_refl eq_refl eq_refl eq_refl
           ltac:(discriminate)
           eq_refl eq_refl eq_refl eq_refl).
Defined.

(** ** Loading and pruning together *)

Lemma kept_rows_snoc (c : Z) (rows : list stored_row) (r : stored_row) :
  c <= row_fetched_at r -> kept_rows c (rows ++ [r]) = kept_rows c rows ++ [r].
Proof.
  intros Hr. unfold kept_rows. rewrite filter_app. f_equal.
  rewrite filter_cons_True by lia. done.
Qed.

(** A row that was just loaded outlives every pruning that runs no more
    than two days after it was stamped: the pruner does not raise, and the
    last row of the table is still that row, with the payload in [raw]. *)
Theorem loaded_row_survives_pruning {rt : Runtime} (api_payload : json) (w : world)
    (later : Z) :
  (load_to_postgres api_payload w).1 = Ok tt ->
  later - 2 * usec_per_day <= pg_now w ->
  let out := cleanup_old_rows (at_time later (load_to_postgres api_payload w).2) in
  out.1 = Ok tt
  /\ exists cells,
       last (weather_current (db out.2)) = Some (StoredRow (pg_now w) cells)
       /\ param_lookup cells "raw" = Some (Json api_payload).
Proof.
  rewrite load_cases.
  destruct (build_row api_payload) as [row | e]; [|done].
  destruct (_pg_conn_params (env w)) as [p | e] eqn:Hp; [|done].
  destruct (pg_up w) eqn:Hup; [|done].
  destruct (INSERT_SQL _ w) as [d | e] eqn:Hins; [|done].
  destruct (insert_sql_inv _ _ _ Hins) as (cells & Hbind & Ht & _ & _ & ->).
  destruct (bind_placeholders_inv _ _ _ Hbind) as [_ Hvals].
  simpl. intros _ Hlater.
  match goal with
  | |- context [cleanup_old_rows ?x] => set (w1 := x)
  end.
  rewrite (cleanup_old_rows_run w1 p Hp Hup Ht). simpl.
  split; [done|]. exists cells. split.
  - rewrite kept_rows_snoc by (simpl; lia). apply last_snoc.
  - rewrite Hvals by (unfold insert_columns; set_solver). apply param_lookup_set.
Qed.

Lemma loaded_row_survives_pruning_witness :
  let w := quiet_world key_only (always example_payload) 1000 (provisioned []) in
  let out := cleanup_old_rows
               (at_time (1000 + usec_per_day)
                  (load_to_postgres example_payload w).2) in
  out.1 = Ok tt
  /\ exists cells,
       last (weather_current (db out.2)) = Some (StoredRow (pg_now w) cells)
       /\ param_lookup cells "raw" = Some (Json example_payload).
Proof.
  apply (loaded_row_survives_pruning example_payload
           (quiet_world key_only (always example_payload) 1000 (provisioned []))
           (1000 + usec_per_day)).
  - reflexivity.
  - vm_compute. discriminate.
Defined.

(** ** One run of the DAG *)

Section Run.
Context {rt : Runtime}.

Lemma ensure_table_run (w : world) (p : conn_params) :
  _pg_conn_params (env w) = Ok p ->
  pg_up w = true ->
  relations (db w) !! TABLE = None \/ relations (db w) !! TABLE = Some RelTable ->
  relations (db w) !! INDEX = None \/ relations (db w) !! INDEX = Some (RelIndex TABLE) ->
  ensure_table w
  = (Ok tt, with_trace (trace w ++ pg_session p "CREATE_TABLE_SQL")
              (with_db (ensured (db w)) w)).
Proof.
  intros Hp Hup Ht Hi. unfold ensure_table.
  rewrite (with_connection_run _ _ w p Hp Hup) by reflexivity.
  by rewrite (create_table_sql_ensures w Ht Hi).
Qed.

(** The run up to the second task: the clock reads [i1], the table is
    ensured, the clock reads [i2]. *)
Lemma dag_run_first_task (i1 i2 i3 : Z) (w : world) (p : conn_params) :
  _pg_conn_params (env w) = Ok p ->
  pg_up w = true ->
  relations (db w) !! TABLE = None \/ relations (db w) !! TABLE = Some RelTable ->
  relations (db w) !! INDEX = None \/ relations (db w) !! INDEX = Some (RelIndex TABLE) ->
  dag_run i1 i2 i3 w
  = (extract_and_load ≫= (fun _ => clock_reads i3 ≫= (fun _ => cleanup_old_rows)))
      (at_time i2 (with_trace (trace w ++ pg_session p "CREATE_TABLE_SQL")
                     (with_db (ensured (db w)) (at_time i1 w)))).
Proof.
  intros Hp Hup Ht Hi. unfold dag_run.
  rewrite (bind_ok (clock_reads i1) _ w (at_time i1 w) tt eq_refl).
  rewrite (bind_ok ensure_table _ _ _ tt
             (ensure_table_run (at_time i1 w) p Hp Hup Ht Hi)).
  by rewrite (bind_ok (clock_reads i2) _ _ _ tt eq_refl).
Qed.

End Run.

(** One run in which every task succeeds at its first try.  With the
    credential set, a valid mapping from the https endpoint that the loader
    can read and the server takes, a reachable server on which the two
    names are free or name the table and its index, and the pruning no more
    than two days after the load: the run returns; the catalog is the
    ensured one; the table holds the rows that were there and are not older
    than two days at the pruning, followed by the new row stamped at the
    load; and the calls are the schema statement, one GET, the INSERT and
    the DELETE, in this order. *)
Theorem dag_run_stores_observation {rt : Runtime} (i1 i2 i3 : Z) (w : world)
    (key : string) (p : conn_params) (fields : list (string * json)) (lat lon : json) :
  env w !! "WEATHERSTACK_API_KEY" = Some key ->
  blank key = false ->
  let query := setting (env w) "WEATHERSTACK_QUERY" "Jakarta" in
  let units := setting (env w) "WEATHERSTACK_UNITS" "m" in
  http w HTTPS_URL (request_params query key units) = Replied (Ok (JDict fields)) ->
  is_Some (dict_lookup fields "current") ->
  dict_lookup fields "success" <> Some (JBool false) ->
  section_ok fields "request" = true ->
  section_ok fields "location" = true ->
  section_ok fields "current" = true ->
  to_double (field fields "location" "lat") = Ok lat ->
  to_double (field fields "location" "lon") = Ok lon ->
  field fields "request" "query" <> JNull ->
  _pg_conn_params (env w) = Ok p ->
  pg_up w = true ->
  relations (db w) !! TABLE = None \/ relations (db w) !! TABLE = Some RelTable ->
  relations (db w) !! INDEX = None \/ relations (db w) !! INDEX = Some (RelIndex TABLE) ->
  forallb (cell_accepted w) (flattened fields lat lon) = true ->
  i3 - 2 * usec_per_day <= i2 ->
  exists w',
    dag_run i1 i2 i3 w = (Ok tt, w')
    /\ relations (db w') = relations (ensured (db w))
    /\ weather_current (db w')
       = kept_rows (i3 - 2 * usec_per_day) (weather_current (ensured (db w)))
         ++ [StoredRow i2 (flattened fields lat lon)]
    /\ trace w'
       = trace w ++ pg_session p "CREATE_TABLE_SQL"
         ++ EvHttpGet HTTPS_URL (request_params query key units) 20
            :: pg_session p "insert_sql"
         ++ pg_session p DELETE_TEXT.
Proof.
  intros Hkey Hblank query units Hhttp Hcur Hflag Hr Hl Hc Hlat Hlon Hq Hp Hup Ht Hi
    Htaken Hlate.
  rewrite (dag_run_first_task i1 i2 i3 w p Hp Hup Ht Hi).
  set (w2 := at_time i2 _).
  assert (Hload : extract_and_load w2
                  = (Ok tt,
                     with_trace
                       (trace w2 ++ EvHttpGet HTTPS_URL (request_params query key units) 20
                                 :: pg_session p "insert_sql")
                       (with_db (Database (relations (db w2))
                                   (weather_current (db w2)
                                    ++ [StoredRow (pg_now w2) (flattened fields lat lon)]))
                          w2))).
  { rewrite (extract_and_load_run w2 key Hkey Hblank).
    apply fetch_then_load; try done. apply ensured_table. }
  rewrite (bind_ok _ _ _ _ tt Hload).
  match goal with
  | |- context [(clock_reads i3 ≫= _) ?x] => set (w3 := x)
  end.
  rewrite (bind_ok (clock_reads i3) _ w3 (at_time i3 w3) tt eq_refl).
  rewrite (cleanup_old_rows_run (at_time i3 w3) p Hp Hup (ensured_table (db w))).
  eexists. split; [reflexivity|]. simpl.
  split; [done|]. split.
  - by rewrite kept_rows_snoc by (simpl; lia).
  - by rewrite <- !app_assoc.
Qed.

Lemma dag_run_stores_observation_witness :
  let w := quiet_world key_only (always example_payload) 0
             (Database ∅ []) in
  let fields :=
    [ ("request", JDict [("query", JStr "Jakarta")]);
      ("location", JDict [("name", JStr "Jakarta"); ("lat", JStr "-6.21");
                          ("lon", JStr "106.85")]);
      ("current", JDict [("temperature", JInt 29); ("humidity", JInt 70)]) ] in
  let p := ConnParams "localhost" 5433 "weatherdb" "weather" "weather" in
  exists w',
    dag_run 10 20 30 w = (Ok tt, w')
    /\ relations (db w') = relations (ensured (db w))
    /\ weather_current (db w')
       = kept_rows (30 - 2 * usec_per_day) (weather_current (ensured (db w)))
         ++ [StoredRow 20 (flattened fields (JFloat (-6.21)%float)
                             (JFloat 106.85%float))]
    /\ trace w'
       = trace w ++ pg_session p "CREATE_TABLE_SQL"
         ++ EvHttpGet HTTPS_URL (request_params "Jakarta" "secret" "m") 20
            :: pg_session p "insert_sql"
         ++ pg_session p DELETE_TEXT.
Proof.
  exact (dag_run_stores_observation 10 20 30
           (quiet_world key_only (always example_payload) 0 (Database ∅ []))
           "secret"
           (ConnParams "localhost" 5433 "weatherdb" "weather" "weather")
           [ ("request", JDict [("query", JStr "Jakarta")]);
             ("location", JDict [("name", JStr "Jakarta"); ("lat", JStr "-6.21");
                                 ("lon", JStr "106.85")]);
             ("current", JDict [("temperature", JInt 29); ("humidity", JInt 70)]) ]
           (JFloat (-6.21)%float) (JFloat 106.85%float)
           eq_refl eq_refl eq_refl
           (ex_intro _ (JDict [("temperature", JInt 29); ("humidity", JInt 70)]) eq_refl)
           ltac:(discriminate)
           eq_refl eq_refl eq_refl eq_refl eq_refl
           ltac:(discriminate)
           eq_refl eq_refl (or_introl eq_refl) (or_introl eq_refl) eq_refl
           ltac:(vm_compute; discriminate)).
Defined.

(** A run without the credential: the first task ensures the table, the
    second raises the [ValueError] of [_get_env], and nothing else is
    done: no GET, no INSERT and no DELETE; the rows that were in the table
    are all still there. *)
Theorem dag_run_without_key {rt : Runtime} (i1 i2 i3 : Z) (w : world) (p : conn_params) :
  env w !! "WEATHERSTACK_API_KEY" = None
  \/ (exists s, env w !! "WEATHERSTACK_API_KEY" = Some s /\ blank s = true) ->
  _pg_conn_params (env w) = Ok p ->
  pg_up w = true ->
  relations (db w) !! TABLE = None \/ relations (db w) !! TABLE = Some RelTable ->
  relations (db w) !! INDEX = None \/ relations (db w) !! INDEX = Some (RelIndex TABLE) ->
  let out := dag_run i1 i2 i3 w in
  out.1 = Raise (Exn ValueError
                   "Missing required environment variable: WEATHERSTACK_API_KEY")
  /\ db out.2 = ensured (db w)
  /\ trace out.2 = trace w ++ pg_session p "CREATE_TABLE_SQL".
Proof.
  intros Hkey Hp Hup Ht Hi out. subst out.
  rewrite (dag_run_first_task i1 i2 i3 w p Hp Hup Ht Hi).
  set (w2 := at_time i2 _).
  assert (Hraise : extract_and_load w2
                   = (Raise (Exn ValueError
                        "Missing required environment variable: WEATHERSTACK_API_KEY"),
                      w2)).
  { unfold extract_and_load. apply bind_raise. unfold get_env. f_equal.
    apply get_env_required_raises. unfold getenv. change (env w2) with (env w).
    destruct Hkey as [-> | (s & -> & Hs)]; [by left | right; eauto]. }
  by rewrite (bind_raise _ _ _ _ _ Hraise).
Qed.

Lemma dag_run_without_key_witness :
  let w := quiet_world ∅ (always example_payload) 0 (Database ∅ []) in
  let out := dag_run 10 20 30 w in
  out.1 = Raise (Exn ValueError
                   "Missing required environment variable: WEATHERSTACK_API_KEY")
  /\ db out.2 = ensured (db w)
  /\ trace out.2
     = trace w ++ pg_session (ConnParams "localhost" 5433 "weatherdb" "weather" "weather")
                    "CREATE_TABLE_SQL".
Proof.
  exact (dag_run_without_key 10 20 30
           (quiet_world ∅ (always example_payload) 0 (Database ∅ []))
           (ConnParams "localhost" 5433 "weatherdb" "weather" "weather")
           (or_introl eq_refl) eq_refl eq_refl (or_introl eq_refl) (or_introl eq_refl)).
Defined.
